(** * Performance Monitoring Dashboard: the cleaning, aggregation and
    classification pipeline of [app/dashboard.py]

    The script is a straight-line Streamlit page.  Its semantic core is
    lines 88-155: detect the date column, coerce it to timestamps, drop the
    rows that did not parse, derive [processing_time] and [is_error],
    group by calendar date, keep the last [view_days] days, label each day
    and look one day up.

    Conventions of the embedding.
    - A [DataFrame] is a list of column names, a dtype per column and a list
      of rows; a row maps a column name to a cell ([value]).
    - pandas' float64 cells are exact rationals ([Q]) with [None] for NaN.
      Rounding of the binary representation is not modelled.
    - A [Timestamp] is a number of nanoseconds since the epoch, a [date] a
      number of days since the epoch, both in [Z].
    - [pd.to_datetime(..., errors="coerce")] parses raw cells through a
      parameter [parse_datetime]; it receives the whole column as well,
      because pandas infers the format from the column.
    - [np.random] is a generator state threaded through the two fallback
      branches.
    - Column names are strings and pairwise distinct, as [pd.read_csv]
      delivers them.
    - Timestamps carry no time zone and their difference is taken in
      unbounded integers: where pandas raises at line 111 (a difference
      that does not fit 64 bits, a column with a time zone against one
      without) the model still yields a number.  No statement below says
      that a run succeeds unless the difference is zero or a few hours;
      the auxiliary lemma [normalize_total] is a fact of the model only.
    - The float64 results are modelled without their rounding.  Statements
      that compare a computed rate or average with its exact value allow
      for the rounding explicitly ([close_to], [rounding_slack]).
    - [st.error] followed by [st.stop] is the outcome [Stop msg]; an uncaught
      Python exception is the outcome [Raise cls]. *)

From Stdlib Require Import String Ascii List Bool Arith ZArith QArith Qabs Lia Lqa.
From Stdlib Require Import Sorting.Sorted Sorting.Permutation.
Import ListNotations.

Local Open Scope string_scope.
Local Open Scope list_scope.

(** ** Strings: [str.lower] and the [in] operator *)

Module Str.

(** [str.lower] on one character.  Only the ASCII capitals change; the
    bytes of a multi-byte UTF-8 character are never ASCII letters. *)
Definition lower_ascii (c : ascii) : ascii :=
  let n := nat_of_ascii c in
  if andb (65 <=? n)%nat (n <=? 90)%nat then ascii_of_nat (n + 32) else c.

Fixpoint lower (s : string) : string :=
  match s with
  | EmptyString => EmptyString
  | String c s' => String (lower_ascii c) (lower s')
  end.

(** [sub in s]: some suffix of [s] starts with [sub]. *)
Fixpoint contains (sub s : string) : bool :=
  match s with
  | EmptyString => prefix sub EmptyString
  | String _ s' => prefix sub s || contains sub s'
  end.

(** The property [contains] decides, in the words of the Python
    documentation: [sub] is a substring of [s]. *)
Definition substring_of (sub s : string) : Prop :=
  exists pre post, s = (pre ++ sub ++ post)%string.

End Str.

(** ** Date column detection (lines 91-95) *)

Definition is_date_name (col : string) : bool :=
  Str.contains "date" (Str.lower col).

(** The [for ... break] loop: the first column that passes the test. *)
Fixpoint detect_date_col (cols : list string) : option string :=
  match cols with
  | [] => None
  | col :: rest => if is_date_name col then Some col else detect_date_col rest
  end.

(** ** Cells, rows and frames *)

Inductive dtype := object_ | float64 | int64 | bool_ | datetime64.

(** One cell.  [VNum] is any number, [VNaN] the missing value of object and
    float columns, [VNaT] the missing value of datetime columns, [VDate] a
    [datetime.date] object. *)
Inductive value :=
| VStr (s : string)
| VNum (q : Q)
| VNaN
| VBool (b : bool)
| VTimestamp (ns : Z)
| VNaT
| VDate (day : Z).

Definition Row := string -> value.

Definition upd (r : Row) (c : string) (v : value) : Row :=
  fun c' => if String.eqb c' c then v else r c'.

Record DataFrame := mkFrame {
  columns : list string;
  dtypes : string -> dtype;
  rows : list Row
}.

(** [len(df)] *)
Definition len (df : DataFrame) : nat := length (rows df).

(** [c in df.columns] *)
Definition has_column (c : string) (df : DataFrame) : bool :=
  existsb (String.eqb c) (columns df).

(** [df[c]] as a Series of cells. *)
Definition column (df : DataFrame) (c : string) : list value :=
  map (fun r => r c) (rows df).

Fixpoint set_cells (c : string) (rs : list Row) (vals : list value) : list Row :=
  match rs, vals with
  | r :: rs', v :: vals' => upd r c v :: set_cells c rs' vals'
  | _, _ => []
  end.

(** [df[c] = vals]: overwrites the column [c] when it exists, appends it
    otherwise.  Every assignment of the script passes as many cells as the
    frame has rows. *)
Definition assign (c : string) (dt : dtype) (vals : list value) (df : DataFrame)
  : DataFrame :=
  {| columns := if has_column c df then columns df else columns df ++ [c];
     dtypes := fun c' => if String.eqb c' c then dt else dtypes df c';
     rows := set_cells c (rows df) vals |}.

(** [pd.notna] on a cell. *)
Definition notna (v : value) : bool :=
  match v with
  | VNaN | VNaT => false
  | _ => true
  end.

(** [df.dropna(subset=[c])] *)
Definition dropna (c : string) (df : DataFrame) : DataFrame :=
  {| columns := columns df;
     dtypes := dtypes df;
     rows := filter (fun r => notna (r c)) (rows df) |}.

(** ** Numbers *)

(** A float64: a rational, or NaN. *)
Definition float := option Q.

Definition as_float (v : value) : float :=
  match v with
  | VNum q => Some q
  | VBool b => Some (if b then 1 else 0)%Q
  | _ => None
  end.

(** [x > c] on a float: false on NaN. *)
Definition gt (x : float) (c : Q) : bool :=
  match x with
  | Some q => negb (Qle_bool q c)
  | None => false
  end.

Definition fmul (x : float) (c : Q) : float :=
  match x with
  | Some q => Some (q * c)%Q
  | None => None
  end.

Fixpoint defined (xs : list float) : list Q :=
  match xs with
  | [] => []
  | Some q :: xs' => q :: defined xs'
  | None :: xs' => defined xs'
  end.

Definition Qsum (qs : list Q) : Q := fold_right Qplus 0%Q qs.

(** The ["mean"] aggregation: NaN cells are skipped, and the mean of no
    cell at all is NaN. *)
Definition mean (xs : list float) : float :=
  match defined xs with
  | [] => None
  | q :: qs => Some (Qsum (q :: qs) / inject_Z (Z.of_nat (length (q :: qs))))%Q
  end.

(** The ["count"] aggregation: the cells that are not missing. *)
Definition count (vs : list value) : nat := length (filter notna vs).

(** ** Time *)

Definition ns_per_day : Z := 86400000000000.

(** [Timestamp.date()] *)
Definition date_of (ns : Z) : Z := (ns / ns_per_day)%Z.

(** [.dt.date]: NaT stays NaT. *)
Definition date_cell (v : value) : value :=
  match v with
  | VTimestamp ns => VDate (date_of ns)
  | _ => VNaT
  end.

Definition dt_date (vs : list value) : list value := map date_cell vs.

(** [(a - b).dt.total_seconds() / 60], cell by cell: NaT on either side
    gives NaN. *)
Definition minutes_cell (a b : value) : value :=
  match a, b with
  | VTimestamp ta, VTimestamp tb => VNum ((ta - tb) # 60000000000)
  | _, _ => VNaN
  end.

Fixpoint minutes_between (xs ys : list value) : list value :=
  match xs, ys with
  | a :: xs', b :: ys' => minutes_cell a b :: minutes_between xs' ys'
  | _, _ => []
  end.

(** [str(d)] for a [datetime.date]: the ISO form [YYYY-MM-DD]. The civil
    date is recovered from the day number with the usual era computation
    (eras of 400 years that start on 1 March). *)
Module Iso.

Definition civil (day : Z) : Z * Z * Z :=
  let z := (day + 719468)%Z in
  let era := (z / 146097)%Z in
  let doe := (z - era * 146097)%Z in
  let yoe := ((doe - doe / 1460 + doe / 36524 - doe / 146096) / 365)%Z in
  let doy := (doe - (365 * yoe + yoe / 4 - yoe / 100))%Z in
  let mp := ((5 * doy + 2) / 153)%Z in
  let d := (doy - (153 * mp + 2) / 5 + 1)%Z in
  let m := (if mp <? 10 then mp + 3 else mp - 9)%Z in
  let y := (yoe + era * 400 + (if m <=? 2 then 1 else 0))%Z in
  (y, m, d).

Definition digit (n : Z) : ascii := ascii_of_nat (48 + Z.to_nat (n mod 10)).

Definition pad2 (n : Z) : string :=
  String (digit (n / 10)) (String (digit n) EmptyString).

Definition pad4 (n : Z) : string :=
  String (digit (n / 1000)) (String (digit (n / 100)) (pad2 n)).

Definition isoformat (day : Z) : string :=
  let '(y, m, d) := civil day in
  (pad4 y ++ "-" ++ pad2 m ++ "-" ++ pad2 d)%string.

End Iso.

(** ** The aggregated frame [daily] *)

Record DailyRow := mkDaily {
  date : Z;
  daily_tickets : nat;
  avg_processing_time : float;
  error_rate : float
}.

Inductive StatusLabel := ActionRequired | Monitoring | OnTrack.

(** The strings [classify] returns. *)
Definition label (s : StatusLabel) : string :=
  match s with
  | ActionRequired => "Action Required"
  | Monitoring => "Monitoring"
  | OnTrack => "On Track"
  end.

(** Lines 138-143. *)
Definition classify (row : DailyRow) : StatusLabel :=
  if gt (error_rate row) 5 || gt (avg_processing_time row) 8 then ActionRequired
  else if gt (error_rate row) 2 then Monitoring
  else OnTrack.

(** A row of [daily] once the [status] column is attached (line 145). *)
Record DailyMetrics := mkMetrics {
  metrics : DailyRow;
  status : StatusLabel
}.

Definition with_status (row : DailyRow) : DailyMetrics :=
  {| metrics := row; status := classify row |}.

(** *** [groupby("date")] *)

(** The group keys: the distinct dates of the [date] column in ascending
    order (groupby sorts its keys and drops missing ones). *)
Fixpoint insert_key (k : Z) (ks : list Z) : list Z :=
  match ks with
  | [] => [k]
  | k' :: ks' =>
      if (k <? k')%Z then k :: ks
      else if (k =? k')%Z then ks
      else k' :: insert_key k ks'
  end.

Fixpoint date_cells (vs : list value) : list Z :=
  match vs with
  | [] => []
  | VDate d :: vs' => d :: date_cells vs'
  | _ :: vs' => date_cells vs'
  end.

Definition group_keys (vs : list value) : list Z :=
  fold_right insert_key [] (date_cells vs).

Definition is_day (k : Z) (v : value) : bool :=
  match v with
  | VDate d => (d =? k)%Z
  | _ => false
  end.

Definition in_group (k : Z) (r : Row) : bool := is_day k (r "date").

(** Lines 126-130: one row per key, with the three named aggregations. *)
Definition groupby_agg (df : DataFrame) : list DailyRow :=
  map (fun k =>
         let grp := filter (in_group k) (rows df) in
         {| date := k;
            daily_tickets := count (map (fun r => r "date") grp);
            avg_processing_time :=
              mean (map (fun r => as_float (r "processing_time")) grp);
            error_rate := mean (map (fun r => as_float (r "is_error")) grp) |})
      (group_keys (column df "date")).

(** Line 132. *)
Definition scale_error_rate (row : DailyRow) : DailyRow :=
  {| date := date row;
     daily_tickets := daily_tickets row;
     avg_processing_time := avg_processing_time row;
     error_rate := fmul (error_rate row) 100 |}.

(** *** [sort_values("date").tail(n)] *)

(** A stable sort on the [date] column: a row goes in front of the first
    row whose date is not smaller. *)
Fixpoint insert_row (x : DailyRow) (l : list DailyRow) : list DailyRow :=
  match l with
  | [] => [x]
  | y :: l' => if (date x <=? date y)%Z then x :: l else y :: insert_row x l'
  end.

Fixpoint sort_values (l : list DailyRow) : list DailyRow :=
  match l with
  | [] => []
  | x :: l' => insert_row x (sort_values l')
  end.

(** [.tail(n)]: the last [n] rows, all of them when there are fewer. *)
Definition tail {A : Type} (n : nat) (l : list A) : list A :=
  skipn (length l - n) l.

(** ** Outcomes *)

Inductive outcome (A : Type) :=
| Ok (a : A)
| Stop (msg : string)      (* [st.error(msg); st.stop()] *)
| Raise (cls : string).    (* an uncaught exception of class [cls] *)
Arguments Ok {A} a.
Arguments Stop {A} msg.
Arguments Raise {A} cls.

(** The failure the specification calls MissingTimestampColumn
    (lines 97-99). *)
Definition MissingTimestampColumn {A : Type} : outcome A :=
  Stop "No date column found in uploaded file.".

(** ** Date selection (lines 150-155) *)

(** [daily["date"].astype(str) == selected_date]; the select box hands
    back [None] when it has no option to offer. *)
Definition date_matches (selected_date : option string) (m : DailyMetrics) : bool :=
  match selected_date with
  | Some s => String.eqb (Iso.isoformat (date (metrics m))) s
  | None => false
  end.

(** [daily[mask].iloc[0]] *)
Definition selected_row (daily : list DailyMetrics) (selected_date : option string)
  : outcome DailyMetrics :=
  match filter (date_matches selected_date) daily with
  | m :: _ => Ok m
  | [] => Raise "IndexError"
  end.

(** ** The pipeline (lines 88-145) *)

Section Pipeline.

(** The parser behind [pd.to_datetime(column, errors="coerce")] on a raw
    cell: the column it belongs to, the cell, and the timestamp when the
    cell parses. *)
Variable parse_datetime : list value -> value -> option Z.

(** The state of numpy's global generator and [random_sample], its draw
    of one float of [0, 1). *)
Variable rng : Type.
Variable random_sample : rng -> Q * rng.

(** [pd.to_datetime(s, errors="coerce")]: timestamps stay, date objects
    become midnight of their day, anything else goes through the parser
    and is NaT when it does not parse. *)
Definition to_datetime_cell (s : list value) (v : value) : value :=
  match v with
  | VTimestamp ns => VTimestamp ns
  | VNaT => VNaT
  | VDate d => VTimestamp (d * ns_per_day)
  | _ => match parse_datetime s v with
         | Some ns => VTimestamp ns
         | None => VNaT
         end
  end.

Definition to_datetime (s : list value) : list value :=
  map (to_datetime_cell s) s.

(** [np.random.uniform(low, high, size=n)] *)
Fixpoint random_uniform (low high : Q) (n : nat) (g : rng) : list value * rng :=
  match n with
  | O => ([], g)
  | S n' =>
      let '(u, g1) := random_sample g in
      let '(xs, g2) := random_uniform low high n' g1 in
      (VNum (low + (high - low) * u) :: xs, g2)
  end.

(** [np.random.choice([0, 1], size=n, p=[0.9, 0.1])]: one sample per
    cell, looked up in the cumulative weights. *)
Fixpoint random_choice01 (n : nat) (g : rng) : list value * rng :=
  match n with
  | O => ([], g)
  | S n' =>
      let '(u, g1) := random_sample g in
      let '(xs, g2) := random_choice01 n' g1 in
      (VNum (if Qle_bool (9 # 10) u then 1 else 0) :: xs, g2)
  end.

(** Line 101. *)
Definition coerce_dates (date_col : string) (df : DataFrame) : DataFrame :=
  assign date_col datetime64 (to_datetime (column df date_col)) df.

(** Line 104. *)
Definition add_date (date_col : string) (df : DataFrame) : DataFrame :=
  assign "date" object_ (dt_date (column df date_col)) df.

(** Lines 107-115. *)
Definition add_processing_time (date_col : string) (df : DataFrame) (g : rng)
  : DataFrame * rng :=
  if has_column "resolved_date" df then
    let df := assign "resolved_date" datetime64
                (to_datetime (column df "resolved_date")) df in
    (assign "processing_time" float64
       (minutes_between (column df "resolved_date")
                        (to_datetime (column df date_col))) df, g)
  else
    let '(xs, g') := random_uniform 5 10 (len df) g in
    (assign "processing_time" float64 xs df, g').

(** [.str.lower().isin(["open", "pending"])] on one cell: a cell that is
    not a string lowers to NaN, which is in no list. *)
Definition lower_isin (targets : list string) (v : value) : value :=
  match v with
  | VStr s => VBool (existsb (String.eqb (Str.lower s)) targets)
  | _ => VBool false
  end.

(** Lines 118-121.  The [.str] accessor exists on object columns only. *)
Definition add_is_error (df : DataFrame) (g : rng) : outcome DataFrame * rng :=
  if has_column "status" df then
    match dtypes df "status" with
    | object_ =>
        (Ok (assign "is_error" bool_
               (map (lower_isin ["open"; "pending"]) (column df "status")) df), g)
    | _ => (Raise "AttributeError", g)
    end
  else
    let '(xs, g') := random_choice01 (len df) g in
    (Ok (assign "is_error" int64 xs df), g').

(** Lines 101-121: the frame of normalized records. *)
Definition normalize (date_col : string) (raw_df : DataFrame) (g : rng)
  : outcome DataFrame * rng :=
  let df := coerce_dates date_col raw_df in
  let df := dropna date_col df in
  let df := add_date date_col df in
  let '(df, g) := add_processing_time date_col df g in
  add_is_error df g.

(** Lines 126-133. *)
Definition aggregate (view_days : nat) (df : DataFrame) : list DailyRow :=
  let daily := groupby_agg df in
  let daily := map scale_error_rate daily in
  tail view_days (sort_values daily).

(** Lines 88-145.  [daily.apply(classify, axis=1)] labels every row; on a
    frame without rows it yields an empty column. *)
Definition pipeline (view_days : nat) (raw_df : DataFrame) (g : rng)
  : outcome (list DailyMetrics) * rng :=
  match detect_date_col (columns raw_df) with
  | None => (MissingTimestampColumn, g)
  | Some date_col =>
      match normalize date_col raw_df g with
      | (Ok df, g') => (Ok (map with_status (aggregate view_days df)), g')
      | (Stop msg, g') => (Stop msg, g')
      | (Raise cls, g') => (Raise cls, g')
      end
  end.

End Pipeline.

(** ** Vocabulary of the specification *)

Section Vocabulary.

Variable parse_datetime : list value -> value -> option Z.

Fixpoint timestamped (rs : list Row) (vs : list value) : list (Row * Z) :=
  match rs, vs with
  | r :: rs', VTimestamp ns :: vs' => (r, ns) :: timestamped rs' vs'
  | _ :: rs', _ :: vs' => timestamped rs' vs'
  | _, _ => []
  end.

(** The rows of the raw table whose primary timestamp parses, each with
    its parsed timestamp, in input order. *)
Definition parsed_rows (date_col : string) (raw_df : DataFrame) : list (Row * Z) :=
  timestamped (rows raw_df) (to_datetime parse_datetime (column raw_df date_col)).

(** The calendar dates of the parsed primary timestamps. *)
Definition event_dates (date_col : string) (raw_df : DataFrame) : list Z :=
  map (fun p => date_of (snd p)) (parsed_rows date_col raw_df).

(** The number of distinct dates of the table. *)
Definition distinct_dates (date_col : string) (raw_df : DataFrame) : nat :=
  length (nodup Z.eq_dec (event_dates date_col raw_df)).

(** The normalized records of the specification, one per parsed row: the
    event date, and the minutes from the primary to the secondary
    timestamp, undefined when the secondary cell does not parse.  The
    secondary cells are parsed as the column they form in the rows that
    survive. *)
Definition records (date_col : string) (raw_df : DataFrame) : list (Z * float) :=
  let P := parsed_rows date_col raw_df in
  let secondary := map (fun p => fst p "resolved_date") P in
  map (fun p =>
         (date_of (snd p),
          as_float (minutes_cell
                      (to_datetime_cell parse_datetime secondary
                                        (fst p "resolved_date"))
                      (VTimestamp (snd p)))))
      P.

(** The processing minutes of the records of day [k]. *)
Definition minutes_of_day (k : Z) (rs : list (Z * float)) : list float :=
  map snd (filter (fun r => (fst r =? k)%Z) rs).

End Vocabulary.

(** The [.str] accessor of the status column can be used: there is no such
    column, or it is an object column. *)
Definition status_usable (df : DataFrame) : bool :=
  negb (has_column "status" df) ||
  match dtypes df "status" with object_ => true | _ => false end.

(** Two frames that the script cannot tell apart: the same column names,
    the same dtype for [status], the same rows. *)
Definition same_frame (a b : DataFrame) : Prop :=
  columns a = columns b /\ dtypes a "status" = dtypes b "status" /\ rows a = rows b.

(** A float that is a number equal to zero. *)
Definition is_zero (x : float) : Prop := exists q, x = Some q /\ (q == 0)%Q.

(** Per distinct date of a [date] column, in ascending order, the number
    of rows that carry it. *)
Definition day_counts (dates : list value) : list (Z * nat) :=
  map (fun k => (k, count (filter (is_day k) dates))) (group_keys dates).

(** The two fields of a day that no random draw can reach. *)
Definition key_fields (m : DailyMetrics) : Z * nat :=
  (date (metrics m), daily_tickets (metrics m)).

Definition outcome_map {A B : Type} (f : A -> B) (o : outcome A) : outcome B :=
  match o with
  | Ok a => Ok (f a)
  | Stop msg => Stop msg
  | Raise cls => Raise cls
  end.

(** The name test, in words: the lowered name has ["date"] inside. *)
Definition names_a_date (col : string) : Prop :=
  Str.substring_of "date" (Str.lower col).

(** [x > c] holds: [x] is a number, and it is larger. *)
Definition exceeds (x : float) (c : Q) : Prop :=
  exists q, x = Some q /\ (c < q)%Q.

Definition date_le (a b : DailyRow) : Prop := (date a <= date b)%Z.
Definition date_lt (a b : DailyRow) : Prop := (date a < date b)%Z.

(** A row that parsed, its primary cell replaced by the timestamp: the row
    as it stands after lines 101-102. *)
Definition stamp (date_col : string) (p : Row * Z) : Row :=
  upd (fst p) date_col (VTimestamp (snd p)).

(** ** Words in either case *)

(** A word as the list of its letters, each in lower case with its
    capital.  [spells word s]: the string [s] is that word, letter by
    letter, each in either case. *)
Fixpoint spells (word : list (ascii * ascii)) (s : string) : bool :=
  match word, s with
  | [], EmptyString => true
  | (lo, up) :: word', String c s' =>
      (Ascii.eqb c lo || Ascii.eqb c up) && spells word' s'
  | _, _ => false
  end.

Definition word_date : list (ascii * ascii) :=
  [("d", "D"); ("a", "A"); ("t", "T"); ("e", "E")]%char.

Definition word_open : list (ascii * ascii) :=
  [("o", "O"); ("p", "P"); ("e", "E"); ("n", "N")]%char.

Definition word_pending : list (ascii * ascii) :=
  [("p", "P"); ("e", "E"); ("n", "N"); ("d", "D"); ("i", "I"); ("n", "N");
   ("g", "G")]%char.

(** The pairs of a word are lower-case letters with their capitals. *)
Definition well_cased (word : list (ascii * ascii)) : Prop :=
  Forall (fun p => (97 <= nat_of_ascii (fst p) <= 122)%nat /\
                   nat_of_ascii (fst p) = (nat_of_ascii (snd p) + 32)%nat) word.

(** The string a word lowers to. *)
Fixpoint lowered (word : list (ascii * ascii)) : string :=
  match word with
  | [] => EmptyString
  | (lo, _) :: word' => String lo (lowered word')
  end.

(** The name contains the word date, in any mix of cases. *)
Definition has_date_word (col : string) : Prop :=
  exists before word after,
    col = (before ++ word ++ after)%string /\ spells word_date word = true.

(** The cell is a string that is the word open or the word pending, in any
    mix of cases, and nothing else. *)
Definition counts_as_error (v : value) : bool :=
  match v with
  | VStr s => spells word_open s || spells word_pending s
  | _ => false
  end.

(** ** Sample data *)

Module Sample.

(** A parser that knows one format only: a whole number is a count of
    nanoseconds since the epoch. *)
Definition parse (_ : list value) (v : value) : option Z :=
  match v with
  | VNum q => if (Zpos (Qden q) =? 1)%Z then Some (Qnum q) else None
  | _ => None
  end.

(** A generator that walks through the tenths. *)
Definition sample (g : nat) : Q * nat := (Z.of_nat (g mod 10) # 10, S g).

(** The cell for minute [minute] of day [day]. *)
Definition at_ (day minute : Z) : value :=
  VNum ((day * ns_per_day + minute * 60000000000)%Z # 1).

Definition row_of (cells : list (string * value)) : Row :=
  fun c => match find (fun p => String.eqb (fst p) c) cells with
           | Some p => snd p
           | None => VNaN
           end.

Definition all_object : string -> dtype := fun _ => object_.

(** 1 January 2024 is day 19723. *)
Definition tickets : DataFrame :=
  {| columns := ["created_date"; "resolved_date"; "status"];
     dtypes := all_object;
     rows :=
       [ row_of [("created_date", at_ 19723 600); ("resolved_date", at_ 19723 606);
                 ("status", VStr "Open")];
         row_of [("created_date", at_ 19724 600); ("resolved_date", at_ 19724 609);
                 ("status", VStr "Resolved")];
         row_of [("created_date", at_ 19724 660); ("resolved_date", VStr "n/a");
                 ("status", VStr "PENDING")];
         row_of [("created_date", at_ 19725 30); ("resolved_date", at_ 19725 20);
                 ("status", VStr "closed")] ] |}.

(** The same tickets with one more row, whose creation date is junk. *)
Definition tickets_junk : DataFrame :=
  {| columns := columns tickets;
     dtypes := all_object;
     rows := row_of [("created_date", VStr "soon"); ("resolved_date", at_ 19723 1);
                     ("status", VStr "Open")] :: rows tickets |}.

(** A table whose creation column is called [date]. *)
Definition dated : DataFrame :=
  {| columns := ["date"; "resolved_date"; "status"];
     dtypes := all_object;
     rows :=
       [ row_of [("date", at_ 19723 600); ("resolved_date", at_ 19723 606);
                 ("status", VStr "Resolved")] ] |}.

(** A table whose first date column is [resolved_date]. *)
Definition resolved_first : DataFrame :=
  {| columns := ["id"; "resolved_date"; "created_date"];
     dtypes := all_object;
     rows :=
       [ row_of [("id", VNum 1); ("resolved_date", at_ 19723 606);
                 ("created_date", at_ 19723 600)];
         row_of [("id", VNum 2); ("resolved_date", at_ 19724 30);
                 ("created_date", at_ 19723 900)] ] |}.

(** No date column at all. *)
Definition notes_only : DataFrame :=
  {| columns := ["notes"];
     dtypes := all_object;
     rows := [ row_of [("notes", VStr "call back")] ] |}.

(** No row with a date that parses. *)
Definition unparsable : DataFrame :=
  {| columns := ["created_date"; "resolved_date"; "status"];
     dtypes := all_object;
     rows := [ row_of [("created_date", VStr "tomorrow"); ("resolved_date", VNaN);
                       ("status", VStr "Open")] ] |}.

(** Only a creation date: both fallbacks are taken. *)
Definition bare : DataFrame :=
  {| columns := ["Created Date"];
     dtypes := all_object;
     rows := [ row_of [("Created Date", at_ 19723 600)];
               row_of [("Created Date", at_ 19723 700)];
               row_of [("Created Date", at_ 19725 5)] ] |}.

(** A run of the pipeline with this parser and this generator. *)
Definition run (view_days : nat) (raw_df : DataFrame) (seed : nat)
  : outcome (list DailyMetrics) * nat :=
  pipeline parse nat sample view_days raw_df seed.

Definition day (d : Z) (n : nat) (a e : Q) : DailyRow := mkDaily d n (Some a) (Some e).

Definition unsorted : list DailyRow :=
  [ day 19725 1 6 0; day 19723 2 7 50; day 19724 4 9 0 ].

End Sample.

(** ** Loading the data (lines 74-83) and selecting a day (lines 150-155) *)

Section Page.

Variable parse_datetime : list value -> value -> option Z.
Variable rng : Type.
Variable random_sample : rng -> Q * rng.

(** One draw of [np.random.randint(low, high)], on the same generator. *)
Variable random_integer : Z -> Z -> rng -> Z * rng.

(** [np.random.randint(low, high, size=n)] *)
Fixpoint randint (low high : Z) (n : nat) (g : rng) : list Z * rng :=
  match n with
  | O => ([], g)
  | S n' =>
      let '(k, g1) := random_integer low high g in
      let '(ks, g2) := randint low high n' g1 in
      (k :: ks, g2)
  end.

(** [np.random.choice(options, size=n)] without weights: each cell is the
    option at an index drawn between 0 and the number of options. *)
Definition choice (options : list string) (n : nat) (g : rng) : list string * rng :=
  let '(idx, g') := randint 0 (Z.of_nat (length options)) n g in
  (map (fun i => nth (Z.to_nat i) options EmptyString) idx, g').

Fixpoint daily_from (start : Z) (periods : nat) : list Z :=
  match periods with
  | O => []
  | S p => start :: daily_from (start + ns_per_day) p
  end.

(** [pd.date_range(end=end_, periods=n)]: [n] timestamps one day apart,
    the last of which is [end_]. *)
Definition date_range (end_ : Z) (periods : nat) : list Z :=
  daily_from (end_ - (Z.of_nat periods - 1) * ns_per_day) periods.

(** One row of the demo frame: [resolved_date] is the creation timestamp
    plus [minutes] minutes. *)
Definition demo_row (created minutes : Z) (st : string) : Row :=
  fun c =>
    if String.eqb c "created_date" then VTimestamp created
    else if String.eqb c "resolved_date"
         then VTimestamp (created + minutes * 60000000000)
    else if String.eqb c "status" then VStr st
    else VNaN.

Fixpoint demo_rows (dates minutes : list Z) (statuses : list string) : list Row :=
  match dates, minutes, statuses with
  | d :: dates', m :: minutes', st :: statuses' =>
      demo_row d m st :: demo_rows dates' minutes' statuses'
  | _, _, _ => []
  end.

(** Lines 78-83, [today] being [datetime.today()]. *)
Definition demo_frame (today : Z) (g : rng) : DataFrame * rng :=
  let dates := date_range today 60 in
  let '(minutes, g1) := randint 30 300 (length dates) g in
  let '(statuses, g2) := choice ["Resolved"; "Open"; "Pending"] (length dates) g1 in
  ({| columns := ["created_date"; "resolved_date"; "status"];
      dtypes := fun c => if String.eqb c "status" then object_ else datetime64;
      rows := demo_rows dates minutes statuses |}, g2).

(** Lines 74-83: the uploaded file as [pd.read_csv] parsed it, or the demo
    frame. *)
Definition load_data (uploaded_file : option DataFrame) (today : Z) (g : rng)
  : DataFrame * rng :=
  match uploaded_file with
  | Some raw_df => (raw_df, g)
  | None => demo_frame today g
  end.

(** [daily["date"].astype(str)], the options of the select box. *)
Definition date_options (daily : list DailyMetrics) : list string :=
  map (fun m => Iso.isoformat (date (metrics m))) daily.

(** [st.selectbox(label, options)]: the option at the index the user
    picked, index 0 until they pick one; [None] without options. *)
Definition selectbox (options : list string) (picked : nat) : option string :=
  nth_error options picked.

(** Lines 74-155: load, run the pipeline, look the selected day up. *)
Definition page (view_days : nat) (uploaded_file : option DataFrame) (today : Z)
    (picked : nat) (g : rng) : outcome DailyMetrics :=
  let '(raw_df, g1) := load_data uploaded_file today g in
  match pipeline parse_datetime rng random_sample view_days raw_df g1 with
  | (Ok daily, _) => selected_row daily (selectbox (date_options daily) picked)
  | (Stop msg, _) => Stop msg
  | (Raise cls, _) => Raise cls
  end.

End Page.

(** A float that is a number between two bounds. *)
Definition in_range (lo hi : Q) (x : float) : Prop :=
  exists q, x = Some q /\ (lo <= q)%Q /\ (q <= hi)%Q.

(** The generator hands out samples of [0, 1). *)
Definition unit_samples {rng : Type} (random_sample : rng -> Q * rng) : Prop :=
  forall g, (0 <= fst (random_sample g))%Q /\ (fst (random_sample g) < 1)%Q.

(** [randint] respects its bounds. *)
Definition bounded_integers {rng : Type} (random_integer : Z -> Z -> rng -> Z * rng)
  : Prop :=
  forall low high g,
    (low < high)%Z ->
    (low <= fst (random_integer low high g) < high)%Z.

(** The number of parsed rows of a day. *)
Definition rows_of_day (k : Z) (P : list (Row * Z)) : list (Row * Z) :=
  filter (fun p => (date_of (snd p) =? k)%Z) P.

(** The parsed rows of a day whose status counts as an error. *)
Definition is_open_or_pending (v : value) : bool :=
  match v with
  | VStr s => String.eqb (Str.lower s) "open" || String.eqb (Str.lower s) "pending"
  | _ => false
  end.

Definition errors_of_day (k : Z) (P : list (Row * Z)) : list (Row * Z) :=
  filter (fun p => is_open_or_pending (fst p "status")) (rows_of_day k P).

Definition Qnat (n : nat) : Q := inject_Z (Z.of_nat n).

(** The tickets of all the days of an output. *)
Definition total_tickets (daily : list DailyMetrics) : nat :=
  list_sum (map (fun m => daily_tickets (metrics m)) daily).

(** How often a date occurs in a list of dates. *)
Definition occurrences (k : Z) (ds : list Z) : nat :=
  length (filter (fun d => (d =? k)%Z) ds).

(** The timestamp in a cell that holds one. *)
Definition ts_of (v : value) : Z :=
  match v with
  | VTimestamp ns => ns
  | _ => 0%Z
  end.

(** [k] consecutive calendar days, the first of which is [start]. *)
Fixpoint days_from (start : Z) (k : nat) : list Z :=
  match k with
  | O => []
  | S k' => start :: days_from (start + 1) k'
  end.

(** The rank of a label: OnTrack, then Monitoring, then ActionRequired. *)
Definition severity (s : StatusLabel) : nat :=
  match s with
  | OnTrack => 0
  | Monitoring => 1
  | ActionRequired => 2
  end.






(** More sample data. *)
Module Draws.

(** An integer generator that walks through the range. *)
Definition integer (low high : Z) (g : nat) : Z * nat :=
  ((low + Z.of_nat g mod (high - low))%Z, S g).

(** Tickets whose status is a numeric code: pandas reads the column as
    int64. *)
Definition coded : DataFrame :=
  {| columns := ["created_date"; "status"];
     dtypes := fun c => if String.eqb c "status" then int64 else object_;
     rows :=
       [ Sample.row_of [("created_date", Sample.at_ 19723 600); ("status", VNum 0)];
         Sample.row_of [("created_date", Sample.at_ 19724 600); ("status", VNum 1)] ] |}.

(** Tickets none of which has a resolved date that parses. *)
Definition unresolved : DataFrame :=
  {| columns := ["created_date"; "resolved_date"; "status"];
     dtypes := Sample.all_object;
     rows :=
       [ Sample.row_of [("created_date", Sample.at_ 19723 600);
                        ("resolved_date", VStr "n/a"); ("status", VStr "Open")];
         Sample.row_of [("created_date", Sample.at_ 19723 700);
                        ("resolved_date", VNaN); ("status", VStr "Resolved")] ] |}.

(** The moment of 1 January 2024 at 10:00. *)
Definition today : Z := ts_of (VTimestamp (19723 * ns_per_day + 36000000000000)).

(** The output of a run, the empty frame when the run fails. *)
Definition output (r : outcome (list DailyMetrics) * nat) : list DailyMetrics :=
  match fst r with
  | Ok daily => daily
  | _ => []
  end.

(** The page with the sample parser and generators. *)
Definition page (view_days : nat) (uploaded_file : option DataFrame) (today : Z)
    (picked : nat) (seed : nat) : outcome DailyMetrics :=
  page Sample.parse nat Sample.sample integer view_days uploaded_file today picked seed.

End Draws.

(** * Properties *)

(** ** Substring test and column detection *)

Lemma prefix_app (sub s : string) :
  prefix sub s = true <-> exists post, s = (sub ++ post)%string.
Proof.
  revert s; induction sub as [|a sub IH]; intros s; simpl.
  - split; [intros _; now exists s | now destruct s].
  - destruct s as [|b s]; simpl.
    + split; [discriminate | intros [post H]; discriminate].
    + destruct (ascii_dec a b) as [->|Hab].
      * rewrite IH. split; intros [post H]; exists post.
        -- now rewrite H.
        -- now injection H.
      * split; [discriminate|]. intros [post H]. injection H as H1 _.
        now elim Hab.
Qed.

Lemma contains_substring (sub s : string) :
  Str.contains sub s = true <-> Str.substring_of sub s.
Proof.
  unfold Str.substring_of.
  induction s as [|c s IH]; cbn [Str.contains].
  - rewrite prefix_app. split.
    + intros [post H]. exists EmptyString, post. exact H.
    + intros [pre [post H]]. destruct pre; simpl in H.
      * now exists post.
      * discriminate.
  - rewrite orb_true_iff, IH, prefix_app. split.
    + intros [[post H]|[pre [post H]]].
      * exists EmptyString, post. exact H.
      * exists (String c pre), post. simpl. now rewrite H.
    + intros [pre [post H]]. destruct pre as [|a pre]; simpl in H.
      * left. now exists post.
      * right. injection H as _ H. now exists pre, post.
Qed.

Lemma is_date_name_iff (col : string) :
  is_date_name col = true <-> names_a_date col.
Proof. apply contains_substring. Qed.

(** *** Lowering and the two cases of a letter *)

Lemma lower_ascii_letter (lo up c : ascii) :
  (97 <= nat_of_ascii lo <= 122)%nat ->
  nat_of_ascii lo = (nat_of_ascii up + 32)%nat ->
  Str.lower_ascii c = lo <-> c = lo \/ c = up.
Proof.
  intros Hlo Hup. unfold Str.lower_ascii.
  destruct ((65 <=? nat_of_ascii c)%nat && (nat_of_ascii c <=? 90)%nat) eqn:E.
  - apply andb_true_iff in E as [E1 E2]. apply Nat.leb_le in E1, E2. split.
    + intros H. right. apply (f_equal nat_of_ascii) in H.
      rewrite nat_ascii_embedding in H by lia.
      rewrite <- (ascii_nat_embedding c), <- (ascii_nat_embedding up).
      f_equal. lia.
    + intros [->| ->]; [lia|].
      rewrite <- Hup. apply ascii_nat_embedding.
  - split; [now left|]. intros [H|H]; [exact H|]. subst c. exfalso.
    apply andb_false_iff in E as [E|E]; apply Nat.leb_gt in E; lia.
Qed.

Lemma spells_lower (word : list (ascii * ascii)) (s : string) :
  well_cased word -> spells word s = true <-> Str.lower s = lowered word.
Proof.
  intros Hw. revert s. induction Hw as [|[lo up] word [Hlo Hup] _ IH]; intros s.
  - destruct s; simpl; split; congruence.
  - destruct s as [|c s]; simpl; [split; discriminate|].
    simpl in Hlo, Hup.
    rewrite andb_true_iff, orb_true_iff, !Ascii.eqb_eq, IH.
    rewrite <- (lower_ascii_letter lo up c Hlo Hup). split.
    + intros [-> ->]. reflexivity.
    + intros [= -> ->]. now split.
Qed.

Lemma well_cased_date : well_cased word_date.
Proof. repeat constructor; simpl; lia. Qed.

Lemma well_cased_open : well_cased word_open.
Proof. repeat constructor; simpl; lia. Qed.

Lemma well_cased_pending : well_cased word_pending.
Proof. repeat constructor; simpl; lia. Qed.

Lemma lower_split (s a b : string) :
  Str.lower s = (a ++ b)%string ->
  exists s1 s2, s = (s1 ++ s2)%string /\ Str.lower s1 = a /\ Str.lower s2 = b.
Proof.
  revert s. induction a as [|x a IH]; intros s H; simpl in H.
  - exists EmptyString, s. now repeat split.
  - destruct s as [|c s]; simpl in H; [discriminate|].
    injection H as Hc H. destruct (IH s H) as (s1 & s2 & -> & H1 & H2).
    exists (String c s1), s2. simpl. rewrite Hc, H1. now repeat split.
Qed.

Lemma lower_append (a b : string) :
  Str.lower (a ++ b)%string = (Str.lower a ++ Str.lower b)%string.
Proof. induction a as [|x a IH]; simpl; [reflexivity | now rewrite IH]. Qed.

(** The name test is the search for the word date in any mix of cases. *)
Lemma names_a_date_word (col : string) : names_a_date col <-> has_date_word col.
Proof.
  unfold names_a_date, Str.substring_of, has_date_word. split.
  - intros (pre & post & H).
    apply lower_split in H as (before & rest & -> & Hb & H).
    apply lower_split in H as (word & after & -> & Hw & Ha).
    exists before, word, after. split; [reflexivity|].
    now apply (spells_lower word_date word well_cased_date).
  - intros (before & word & after & -> & Hw).
    apply (spells_lower word_date word well_cased_date) in Hw.
    exists (Str.lower before), (Str.lower after).
    now rewrite !lower_append, Hw.
Qed.


Lemma spells_eqb (word : list (ascii * ascii)) (s : string) :
  well_cased word -> spells word s = String.eqb (Str.lower s) (lowered word).
Proof.
  intros Hw. apply Bool.eq_iff_eq_true.
  now rewrite (spells_lower word s Hw), String.eqb_eq.
Qed.

Lemma detect_none (cols : list string) :
  detect_date_col cols = None <-> forall c, In c cols -> ~ names_a_date c.
Proof.
  induction cols as [|col rest IH]; simpl.
  - split; [intros _ c [] | reflexivity].
  - destruct (is_date_name col) eqn:E.
    + split; [discriminate|]. intros H. exfalso.
      apply (H col); [now left | now apply is_date_name_iff].
    + rewrite IH. split.
      * intros H c [<-|Hc]; [|now apply H].
        rewrite <- is_date_name_iff. congruence.
      * intros H c Hc. apply H. now right.
Qed.

Lemma detect_first (cols : list string) (col : string) :
  detect_date_col cols = Some col <->
  exists before after,
    cols = before ++ col :: after /\ names_a_date col /\
    forall c, In c before -> ~ names_a_date c.
Proof.
  revert col; induction cols as [|x rest IH]; intros col; simpl.
  - split; [discriminate|]. intros (b & a & H & _). now destruct b.
  - destruct (is_date_name x) eqn:E.
    + split.
      * intros [= <-]. exists [], rest. repeat split.
        -- now apply is_date_name_iff.
        -- intros c [].
      * intros (b & a & H & Hcol & Hb). destruct b as [|y b]; simpl in H.
        -- now injection H as ->.
        -- injection H as -> _. exfalso. apply (Hb y); [now left|].
           now apply is_date_name_iff.
    + rewrite IH. split.
      * intros (b & a & -> & Hcol & Hb). exists (x :: b), a. repeat split; auto.
        intros c [<-|Hc]; [|now apply Hb].
        rewrite <- is_date_name_iff. congruence.
      * intros (b & a & H & Hcol & Hb). destruct b as [|y b]; simpl in H.
        -- injection H as -> _. apply is_date_name_iff in Hcol. congruence.
        -- injection H as -> ->. exists b, a. repeat split; auto.
           intros c Hc. apply Hb. now right.
Qed.

(** ** Floats and the classifier *)

Lemma gt_exceeds (x : float) (c : Q) : gt x c = true <-> exceeds x c.
Proof.
  unfold gt, exceeds. destruct x as [q|].
  - rewrite negb_true_iff. split.
    + intros H. exists q. split; [reflexivity|].
      apply Qnot_le_lt. intros Hle. apply Qle_bool_iff in Hle. congruence.
    + intros (q' & [= <-] & Hlt).
      destruct (Qle_bool q c) eqn:E; [|reflexivity].
      apply Qle_bool_iff in E. exfalso. now apply (Qlt_not_le c q).
  - split; [discriminate | intros (q & H & _); discriminate].
Qed.

(** C1. The classifier returns ActionRequired exactly when the error rate
    is above 5 or the average processing time is above 8, Monitoring exactly
    when neither holds and the error rate is above 2, and OnTrack otherwise.
    The comparisons are strict: an error rate of exactly 5 with an average
    of exactly 8 is Monitoring (not ActionRequired), 5.0001 is
    ActionRequired, an error rate of exactly 2 is OnTrack and 2.0001 is
    Monitoring. *)
Theorem C1_classify_thresholds (row : DailyRow) :
  let action :=
    exceeds (error_rate row) 5 \/ exceeds (avg_processing_time row) 8 in
  let at_ (a e : Q) := mkDaily (date row) (daily_tickets row) (Some a) (Some e) in
  (classify row = ActionRequired <-> action) /\
  (classify row = Monitoring <-> ~ action /\ exceeds (error_rate row) 2) /\
  (classify row = OnTrack <-> ~ action /\ ~ exceeds (error_rate row) 2) /\
  classify (at_ 8 5) = Monitoring /\
  classify (at_ 8 (50001 # 10000)) = ActionRequired /\
  classify (at_ 8 2) = OnTrack /\
  classify (at_ 8 (20001 # 10000)) = Monitoring.
Proof.
  cbv zeta. unfold classify.
  rewrite <- !gt_exceeds.
  destruct (gt (error_rate row) 5) eqn:E5,
           (gt (avg_processing_time row) 8) eqn:E8,
           (gt (error_rate row) 2) eqn:E2; simpl;
    repeat split; try reflexivity; try discriminate; intros;
    repeat match goal with
           | H : _ /\ _ |- _ => destruct H
           | H : _ \/ _ |- _ => destruct H
           | H : ~ _ |- _ => try (exfalso; apply H; auto; fail)
           end; try discriminate; auto;
    try (intros [|]; discriminate).
Qed.

(** ** Column assignment *)

Lemma upd_same (r : Row) (c : string) (v : value) : upd r c v c = v.
Proof. unfold upd. now rewrite String.eqb_refl. Qed.

Lemma upd_other (r : Row) (c k : string) (v : value) :
  k <> c -> upd r c v k = r k.
Proof.
  intros H. unfold upd. destruct (String.eqb_spec k c); [contradiction|reflexivity].
Qed.

Lemma set_cells_map (c : string) (f : Row -> value) (rs : list Row) :
  set_cells c rs (map f rs) = map (fun r => upd r c (f r)) rs.
Proof. induction rs as [|r rs IH]; simpl; [reflexivity | now rewrite IH]. Qed.

Lemma length_set_cells (c : string) (rs : list Row) (vals : list value) :
  length vals = length rs -> length (set_cells c rs vals) = length rs.
Proof.
  revert vals; induction rs as [|r rs IH]; intros [|v vals]; simpl; try easy.
  intros [= H]. now rewrite IH.
Qed.

Lemma column_set_cells_same (c : string) (rs : list Row) (vals : list value) :
  length vals = length rs -> map (fun r => r c) (set_cells c rs vals) = vals.
Proof.
  revert vals; induction rs as [|r rs IH]; intros [|v vals]; simpl; try easy.
  intros [= H]. now rewrite upd_same, IH.
Qed.

Lemma column_set_cells_other (c k : string) (rs : list Row) (vals : list value) :
  k <> c -> length vals = length rs ->
  map (fun r => r k) (set_cells c rs vals) = map (fun r => r k) rs.
Proof.
  intros Hk. revert vals; induction rs as [|r rs IH]; intros [|v vals]; simpl; try easy.
  intros [= H]. now rewrite upd_other, IH.
Qed.

Lemma has_column_assign (c k : string) (dt : dtype) (vals : list value) (df : DataFrame) :
  has_column k (assign c dt vals df) = has_column k df || String.eqb k c.
Proof.
  unfold has_column at 1. simpl. fold (has_column c df).
  destruct (has_column c df) eqn:E.
  - fold (has_column k df). destruct (String.eqb_spec k c) as [->|];
      [now rewrite E | now rewrite orb_false_r].
  - rewrite existsb_app. simpl. now rewrite orb_false_r.
Qed.

Lemma column_filter (c : string) (p : value -> bool) (rs : list Row) :
  map (fun r => r c) (filter (fun r => p (r c)) rs) = filter p (map (fun r => r c) rs).
Proof.
  induction rs as [|r rs IH]; simpl; [reflexivity|].
  destruct (p (r c)); simpl; now rewrite IH.
Qed.

Lemma length_minutes_between (xs ys : list value) :
  length ys = length xs -> length (minutes_between xs ys) = length xs.
Proof.
  revert ys; induction xs as [|x xs IH]; intros [|y ys]; simpl; try easy.
  intros [= H]. now rewrite IH.
Qed.

Lemma length_column (df : DataFrame) (k : string) : length (column df k) = len df.
Proof. apply length_map. Qed.

Lemma len_assign (c : string) (dt : dtype) (vals : list value) (df : DataFrame) :
  length vals = len df -> len (assign c dt vals df) = len df.
Proof. apply length_set_cells. Qed.

Lemma column_assign_same (c : string) (dt : dtype) (vals : list value) (df : DataFrame) :
  length vals = len df -> column (assign c dt vals df) c = vals.
Proof. apply column_set_cells_same. Qed.

Lemma column_assign_other (c k : string) (dt : dtype) (vals : list value) (df : DataFrame) :
  k <> c -> length vals = len df -> column (assign c dt vals df) k = column df k.
Proof. apply column_set_cells_other. Qed.

Lemma minutes_between_map {A : Type} (f h : A -> value) (l : list A) :
  minutes_between (map f l) (map h l) = map (fun a => minutes_cell (f a) (h a)) l.
Proof. induction l as [|a l IH]; simpl; [reflexivity | now rewrite IH]. Qed.

(** ** Group keys *)

Lemma insert_key_In (k x : Z) (ks : list Z) :
  In x (insert_key k ks) <-> x = k \/ In x ks.
Proof.
  induction ks as [|k' ks IH]; simpl.
  - intuition.
  - destruct (Z.ltb_spec k k'); [simpl; intuition|].
    destruct (Z.eqb_spec k k') as [->|]; simpl; [intuition|].
    rewrite IH. intuition.
Qed.

Lemma insert_key_sorted (k : Z) (ks : list Z) :
  StronglySorted Z.lt ks -> StronglySorted Z.lt (insert_key k ks).
Proof.
  induction 1 as [|k' ks Hs IH Hall]; simpl.
  - repeat constructor.
  - destruct (Z.ltb_spec k k').
    + constructor; [now constructor|].
      constructor; [assumption|].
      eapply Forall_impl; [|exact Hall]. simpl. intros; lia.
    + destruct (Z.eqb_spec k k'); [now constructor|].
      constructor; [assumption|].
      apply Forall_forall. intros x Hx. apply insert_key_In in Hx.
      destruct Hx as [->|Hx]; [lia|].
      rewrite Forall_forall in Hall. now apply Hall.
Qed.

Lemma group_keys_In (vs : list value) (k : Z) :
  In k (group_keys vs) <-> In k (date_cells vs).
Proof.
  unfold group_keys. induction (date_cells vs) as [|d ds IH]; simpl; [tauto|].
  rewrite insert_key_In, IH. intuition.
Qed.

Lemma group_keys_sorted (vs : list value) : StronglySorted Z.lt (group_keys vs).
Proof.
  unfold group_keys. induction (date_cells vs) as [|d ds IH]; simpl.
  - constructor.
  - now apply insert_key_sorted.
Qed.

Lemma sorted_lt_NoDup (ks : list Z) : StronglySorted Z.lt ks -> NoDup ks.
Proof.
  induction 1 as [|k ks Hs IH Hall]; constructor; [|assumption].
  intros Hin. rewrite Forall_forall in Hall. specialize (Hall k Hin). lia.
Qed.

Lemma group_keys_length (vs : list value) :
  length (group_keys vs) = length (nodup Z.eq_dec (date_cells vs)).
Proof.
  apply Permutation_length, NoDup_Permutation.
  - apply sorted_lt_NoDup, group_keys_sorted.
  - apply NoDup_nodup.
  - intros k. now rewrite group_keys_In, nodup_In.
Qed.

(** ** Sorting and the window *)

Lemma insert_row_perm (x : DailyRow) (l : list DailyRow) :
  Permutation (x :: l) (insert_row x l).
Proof.
  induction l as [|y l IH]; simpl; [reflexivity|].
  destruct (date x <=? date y)%Z; [reflexivity|].
  rewrite perm_swap. now constructor.
Qed.

Lemma sort_values_perm (l : list DailyRow) : Permutation l (sort_values l).
Proof.
  induction l as [|x l IH]; simpl; [constructor|].
  rewrite <- insert_row_perm. now constructor.
Qed.

Lemma insert_row_sorted (x : DailyRow) (l : list DailyRow) :
  StronglySorted date_le l -> StronglySorted date_le (insert_row x l).
Proof.
  induction 1 as [|y l Hs IH Hall]; simpl.
  - repeat constructor.
  - destruct (Z.leb_spec (date x) (date y)).
    + constructor; [now constructor|].
      constructor; [assumption|].
      eapply Forall_impl; [|exact Hall]. unfold date_le. intros; lia.
    + constructor; [assumption|].
      apply Forall_forall. intros z Hz.
      apply (Permutation_in _ (Permutation_sym (insert_row_perm x l))) in Hz.
      destruct Hz as [<-|Hz]; [unfold date_le; lia|].
      rewrite Forall_forall in Hall. now apply Hall.
Qed.

Lemma sort_values_sorted (l : list DailyRow) : StronglySorted date_le (sort_values l).
Proof.
  induction l as [|x l IH]; simpl; [constructor | now apply insert_row_sorted].
Qed.

Lemma sorted_le_NoDup_lt (l : list DailyRow) :
  StronglySorted date_le l -> NoDup (map date l) -> StronglySorted date_lt l.
Proof.
  induction 1 as [|x l Hs IH Hall]; simpl; intros Hnd; [constructor|].
  inversion Hnd as [|? ? Hnotin Hnd']; subst.
  constructor; [now apply IH|].
  rewrite Forall_forall in *. intros y Hy. specialize (Hall y Hy).
  unfold date_le, date_lt in *.
  assert (date x <> date y) by (intros E; apply Hnotin; rewrite E; now apply in_map).
  lia.
Qed.

(** Sorting a frame whose dates already increase leaves it as it is. *)
Lemma sort_values_id (l : list DailyRow) :
  StronglySorted date_lt l -> sort_values l = l.
Proof.
  induction 1 as [|x l Hs IH Hall]; simpl; [reflexivity|].
  rewrite IH. destruct l as [|y l]; simpl; [reflexivity|].
  inversion Hall as [|? ? Hxy _]; subst. unfold date_lt in Hxy.
  destruct (Z.leb_spec (date x) (date y)); [reflexivity | lia].
Qed.

Lemma tail_split {A : Type} (n : nat) (l : list A) :
  l = firstn (length l - n) l ++ tail n l.
Proof. unfold tail. now rewrite firstn_skipn. Qed.

Lemma tail_length {A : Type} (n : nat) (l : list A) :
  length (tail n l) = Nat.min n (length l).
Proof. unfold tail. rewrite length_skipn. lia. Qed.

Lemma tail_all {A : Type} (n : nat) (l : list A) :
  (length l <= n)%nat -> tail n l = l.
Proof.
  intros H. unfold tail. replace (length l - n)%nat with 0%nat by lia. reflexivity.
Qed.

Lemma tail_tail {A : Type} (n m : nat) (l : list A) :
  (n <= m)%nat -> tail n (tail m l) = tail n l.
Proof.
  intros H. unfold tail. rewrite length_skipn, skipn_skipn. f_equal. lia.
Qed.

Lemma tail_map {A B : Type} (f : A -> B) (n : nat) (l : list A) :
  map f (tail n l) = tail n (map f l).
Proof. unfold tail. now rewrite length_map, skipn_map. Qed.

(** C7. On an aggregated frame keyed by date, the window selector
    [sort_values("date").tail(n)] returns the last [n] rows of the frame put
    in ascending date order: the frame is a rearrangement of some older rows
    followed by the window, dates strictly increasing throughout.  The window
    has [min n (length daily)] rows, so with no more than [n] dates every row
    is returned and nothing is padded; its dates are pairwise distinct. *)
Theorem C7_window_selector (daily : list DailyRow) (n : nat) :
  NoDup (map date daily) ->
  (0 < n)%nat ->
  let window := tail n (sort_values daily) in
  (exists older,
      Permutation daily (older ++ window) /\
      StronglySorted date_lt (older ++ window)) /\
  length window = Nat.min n (length daily) /\
  ((length daily <= n)%nat -> Permutation daily window) /\
  StronglySorted date_lt window /\
  NoDup (map date window).
Proof.
  intros Hnd _ window.
  pose proof (sort_values_perm daily) as Hperm.
  assert (Hlt : StronglySorted date_lt (sort_values daily)).
  { apply sorted_le_NoDup_lt; [apply sort_values_sorted|].
    eapply Permutation_NoDup; [|exact Hnd]. now apply Permutation_map. }
  pose proof (tail_split n (sort_values daily)) as Hsplit. fold window in Hsplit.
  assert (Hw : StronglySorted date_lt window).
  { rewrite Hsplit in Hlt. clear Hsplit.
    induction (firstn (length (sort_values daily) - n) (sort_values daily));
      [exact Hlt|]. apply IHl. now inversion Hlt. }
  repeat split.
  - exists (firstn (length (sort_values daily) - n) (sort_values daily)).
    rewrite <- Hsplit. now split.
  - unfold window. rewrite tail_length.
    now rewrite (Permutation_length Hperm).
  - intros Hle. unfold window. rewrite tail_all; [assumption|].
    now rewrite <- (Permutation_length Hperm).
  - exact Hw.
  - clear -Hw. induction Hw as [|x l Hs IH Hall]; simpl; constructor; [|assumption].
    intros Hin. apply in_map_iff in Hin as (y & Hy & Hin).
    rewrite Forall_forall in Hall. specialize (Hall y Hin).
    unfold date_lt in Hall. lia.
Qed.

Lemma C7_window_selector_witness :
  NoDup (map date Sample.unsorted) /\
  length (tail 2 (sort_values Sample.unsorted)) = 2%nat /\
  NoDup (map date (tail 2 (sort_values Sample.unsorted))).
Proof.
  assert (Hnd : NoDup (map date Sample.unsorted)).
  { simpl. repeat constructor; simpl; intuition discriminate. }
  split; [exact Hnd|].
  destruct (C7_window_selector Sample.unsorted 2 Hnd ltac:(lia))
    as (_ & Hlen & _ & _ & Hu).
  split; [exact Hlen | exact Hu].
Defined.

(** ** Date selection *)

(** C5, as the code has it.  Whenever the supplied date string matches the
    date of no row of the aggregated frame, the look-up of the selected day
    raises Python's IndexError.  An empty frame (no row survived the
    filtering) is an instance and gets the same IndexError: the two cases
    are not told apart, and neither has a name of its own. *)
Theorem C5_lookup_failure (daily : list DailyMetrics) (selected_date : option string) :
  (forall m, In m daily ->
             selected_date <> Some (Iso.isoformat (date (metrics m)))) ->
  selected_row daily selected_date = Raise "IndexError".
Proof.
  intros H. unfold selected_row.
  replace (filter (date_matches selected_date) daily) with (@nil DailyMetrics);
    [reflexivity|].
  symmetry. induction daily as [|m daily IH]; simpl; [reflexivity|].
  assert (E : date_matches selected_date m = false).
  { unfold date_matches. destruct selected_date as [s|]; [|reflexivity].
    apply String.eqb_neq. intros Heq. apply (H m); [now left|]. now rewrite Heq. }
  rewrite E. apply IH. intros m' Hm'. apply H. now right.
Qed.

Lemma C5_lookup_failure_witness :
  selected_row [] None = Raise "IndexError" /\
  selected_row [with_status (Sample.day 19723 1 6 0)] (Some "2024-01-02")
  = Raise "IndexError".
Proof.
  split.
  - apply (C5_lookup_failure [] None). intros m [].
  - apply (C5_lookup_failure [with_status (Sample.day 19723 1 6 0)] (Some "2024-01-02")).
    intros m [<-|[]]. vm_compute. discriminate.
Defined.

(** ** Frames that cannot be told apart *)





Lemma same_dropna (a b : DataFrame) (c : string) :
  same_frame a b -> same_frame (dropna c a) (dropna c b).
Proof.
  intros (H1 & H2 & H3). unfold same_frame, dropna. cbn [columns dtypes rows].
  now rewrite H1, H2, H3.
Qed.

(** ** Means *)

Lemma Qsum_zero (qs : list Q) : Forall (fun q => q == 0)%Q qs -> (Qsum qs == 0)%Q.
Proof.
  induction 1 as [|q qs Hq _ IH]; simpl; [reflexivity|].
  rewrite Hq, IH. reflexivity.
Qed.

Lemma defined_zero (xs : list float) :
  Forall is_zero xs ->
  Forall (fun q => q == 0)%Q (defined xs) /\ length (defined xs) = length xs.
Proof.
  induction 1 as [|x xs (q & -> & Hq) _ [IH1 IH2]]; simpl; [now split|].
  split; [now constructor | now rewrite IH2].
Qed.

Lemma mean_zero (xs : list float) :
  xs <> [] -> Forall is_zero xs -> is_zero (mean xs).
Proof.
  intros Hne Hall. destruct (defined_zero xs Hall) as [Hz Hlen].
  unfold mean. destruct (defined xs) as [|q qs] eqn:E.
  - destruct xs; [contradiction | discriminate].
  - eexists. split; [reflexivity|].
    rewrite (Qsum_zero _ Hz). unfold Qdiv. apply Qmult_0_l.
Qed.

Lemma date_cells_In (vs : list value) (k : Z) :
  In k (date_cells vs) <-> In (VDate k) vs.
Proof.
  induction vs as [|v vs IH]; simpl; [tauto|].
  destruct v; simpl; rewrite IH; intuition (try discriminate; try congruence).
Qed.

Lemma tail_In {A : Type} (n : nat) (l : list A) (x : A) : In x (tail n l) -> In x l.
Proof. intros H. rewrite (tail_split n l). apply in_or_app. now right. Qed.

(** ** The normalized frame *)

Section PipelineFacts.

Variable parse_datetime : list value -> value -> option Z.
Variable rng : Type.
Variable random_sample : rng -> Q * rng.

Local Abbreviation to_datetime_cell := (to_datetime_cell parse_datetime).
Local Abbreviation to_datetime := (to_datetime parse_datetime).
Local Abbreviation random_uniform := (random_uniform rng random_sample).
Local Abbreviation random_choice01 := (random_choice01 rng random_sample).
Local Abbreviation coerce_dates := (coerce_dates parse_datetime).
Local Abbreviation add_processing_time :=
  (add_processing_time parse_datetime rng random_sample).
Local Abbreviation add_is_error := (add_is_error rng random_sample).
Local Abbreviation normalize := (normalize parse_datetime rng random_sample).
Local Abbreviation pipeline := (pipeline parse_datetime rng random_sample).
Local Abbreviation parsed_rows := (parsed_rows parse_datetime).
Local Abbreviation event_dates := (event_dates parse_datetime).
Local Abbreviation distinct_dates := (distinct_dates parse_datetime).

Lemma length_to_datetime (s : list value) : length (to_datetime s) = length s.
Proof. apply length_map. Qed.

Lemma length_random_uniform (low high : Q) (n : nat) (g : rng) :
  length (fst (random_uniform low high n g)) = n.
Proof.
  revert g; induction n as [|n IH]; intros g; simpl; [reflexivity|].
  destruct (random_sample g) as [u g1]. specialize (IH g1).
  destruct (random_uniform low high n g1) as [xs g2]. simpl in *. now rewrite IH.
Qed.

Lemma length_random_choice01 (n : nat) (g : rng) :
  length (fst (random_choice01 n g)) = n.
Proof.
  revert g; induction n as [|n IH]; intros g; simpl; [reflexivity|].
  destruct (random_sample g) as [u g1]. specialize (IH g1).
  destruct (random_choice01 n g1) as [xs g2]. simpl in *. now rewrite IH.
Qed.

Lemma timestamped_rows (c : string) (ctx : list value) (rs : list Row) :
  filter (fun r => notna (r c))
         (set_cells c rs (map (to_datetime_cell ctx) (map (fun r => r c) rs)))
  = map (stamp c) (timestamped rs (map (to_datetime_cell ctx) (map (fun r => r c) rs))).
Proof.
  induction rs as [|r rs IH]; simpl; [reflexivity|].
  rewrite upd_same.
  destruct (to_datetime_cell ctx (r c)) eqn:E; simpl;
    try (unfold to_datetime_cell in E;
         destruct (r c); try destruct (parse_datetime ctx _); discriminate);
    try exact IH.
  now rewrite IH.
Qed.

Lemma rows_dropna_coerce (c : string) (df : DataFrame) :
  rows (dropna c (coerce_dates c df)) = map (stamp c) (parsed_rows c df).
Proof. apply timestamped_rows. Qed.


Lemma to_datetime_timestamps {A : Type} (f : A -> Z) (l : list A) :
  to_datetime (map (fun a => VTimestamp (f a)) l) = map (fun a => VTimestamp (f a)) l.
Proof.
  unfold to_datetime. generalize (map (fun a => VTimestamp (f a)) l) at 1.
  intros ctx. rewrite map_map. reflexivity.
Qed.

(** The frame after line 104, column by column. *)
Section AfterLine104.

Variable c : string.
Variable raw_df : DataFrame.

Let P := parsed_rows c raw_df.
Let N1 := add_date c (dropna c (coerce_dates c raw_df)).

Lemma len_dated : len N1 = length P.
Proof.
  unfold N1, add_date. rewrite len_assign.
  - unfold len. rewrite rows_dropna_coerce. apply length_map.
  - unfold dt_date. now rewrite length_map, length_column.
Qed.

Lemma primary_after_dropna :
  column (dropna c (coerce_dates c raw_df)) c = map (fun p => VTimestamp (snd p)) P.
Proof.
  unfold column. rewrite rows_dropna_coerce, map_map.
  apply map_ext. intros p. apply upd_same.
Qed.

Lemma date_column : column N1 "date" = map (fun p => VDate (date_of (snd p))) P.
Proof.
  unfold N1, add_date. rewrite column_assign_same.
  - rewrite primary_after_dropna. unfold dt_date. now rewrite map_map.
  - unfold dt_date. now rewrite length_map, length_column.
Qed.

Lemma primary_column :
  c <> "date" -> column N1 c = map (fun p => VTimestamp (snd p)) P.
Proof.
  intros Hc. unfold N1, add_date. rewrite column_assign_other; try assumption.
  - apply primary_after_dropna.
  - unfold dt_date. now rewrite length_map, length_column.
Qed.

Lemma other_column (k : string) :
  k <> c -> k <> "date" -> column N1 k = map (fun p => fst p k) P.
Proof.
  intros Hkc Hkd. unfold N1, add_date. rewrite column_assign_other; try assumption.
  - unfold column. rewrite rows_dropna_coerce, map_map.
    apply map_ext. intros p. now apply upd_other.
  - unfold dt_date. now rewrite length_map, length_column.
Qed.

Lemma has_column_dated (k : string) :
  has_column k N1 = has_column k raw_df || String.eqb k c || String.eqb k "date".
Proof.
  unfold N1, add_date. rewrite has_column_assign. f_equal.
  unfold coerce_dates. change (has_column k (dropna c ?d)) with (has_column k d).
  apply has_column_assign.
Qed.

Lemma event_dates_date_column : date_cells (column N1 "date") = event_dates c raw_df.
Proof.
  rewrite date_column. unfold event_dates. fold P.
  induction P as [|p l IH]; simpl; [reflexivity | now rewrite IH].
Qed.

End AfterLine104.


(** *** Lines 107-115 *)

Lemma processing_time_resolved (c : string) (df : DataFrame) (g : rng) :
  has_column "resolved_date" df = true ->
  add_processing_time c df g =
  (let df1 := assign "resolved_date" datetime64
                (to_datetime (column df "resolved_date")) df in
   assign "processing_time" float64
     (minutes_between (column df1 "resolved_date") (to_datetime (column df1 c))) df1,
   g).
Proof. intros H. unfold add_processing_time. now rewrite H. Qed.

Lemma processing_time_len (c : string) (df : DataFrame) (g : rng) :
  len (fst (add_processing_time c df g)) = len df.
Proof.
  unfold add_processing_time. destruct (has_column "resolved_date" df).
  - cbv zeta. simpl fst.
    assert (L : len (assign "resolved_date" datetime64
                       (to_datetime (column df "resolved_date")) df) = len df).
    { apply len_assign. now rewrite length_to_datetime, length_column. }
    rewrite len_assign; [exact L|].
    rewrite length_minutes_between; rewrite ?length_to_datetime, ?length_column;
      try reflexivity.
  - pose proof (length_random_uniform 5 10 (len df) g) as L.
    destruct (random_uniform 5 10 (len df) g) as [xs g']. simpl in *.
    now apply len_assign.
Qed.

Lemma processing_time_keeps (c k : string) (df : DataFrame) (g : rng) :
  k <> "resolved_date" -> k <> "processing_time" ->
  column (fst (add_processing_time c df g)) k = column df k.
Proof.
  intros Hr Hp. unfold add_processing_time. destruct (has_column "resolved_date" df).
  - cbv zeta. simpl fst.
    assert (L : len (assign "resolved_date" datetime64
                       (to_datetime (column df "resolved_date")) df) = len df).
    { apply len_assign. now rewrite length_to_datetime, length_column. }
    rewrite column_assign_other; try assumption.
    + apply column_assign_other; try assumption.
      now rewrite length_to_datetime, length_column.
    + rewrite length_minutes_between; rewrite ?length_to_datetime, ?length_column;
        try reflexivity.
  - pose proof (length_random_uniform 5 10 (len df) g) as L.
    destruct (random_uniform 5 10 (len df) g) as [xs g']. simpl in *.
    now apply column_assign_other.
Qed.

Lemma processing_time_has_column (c k : string) (df : DataFrame) (g : rng) :
  has_column k (fst (add_processing_time c df g))
  = has_column k df || String.eqb k "processing_time".
Proof.
  unfold add_processing_time. destruct (has_column "resolved_date" df) eqn:E.
  - cbv zeta. simpl fst. rewrite !has_column_assign.
    destruct (String.eqb_spec k "resolved_date") as [->|]; [rewrite E|];
      now rewrite ?orb_false_r, ?orb_true_r.
  - destruct (random_uniform 5 10 (len df) g) as [xs g']. simpl.
    apply has_column_assign.
Qed.

Lemma processing_time_status_dtype (c : string) (df : DataFrame) (g : rng) :
  dtypes (fst (add_processing_time c df g)) "status" = dtypes df "status".
Proof.
  unfold add_processing_time. destruct (has_column "resolved_date" df).
  - reflexivity.
  - destruct (random_uniform 5 10 (len df) g) as [xs g']. reflexivity.
Qed.

(** *** Lines 118-121 *)

Lemma is_error_Ok (df df' : DataFrame) (g g' : rng) :
  add_is_error df g = (Ok df', g') ->
  exists dt vals, length vals = len df /\ df' = assign "is_error" dt vals df.
Proof.
  unfold add_is_error. destruct (has_column "status" df).
  - destruct (dtypes df "status"); intros [= <- <-]; try discriminate.
    eexists _, _. split; [|reflexivity]. now rewrite length_map, length_column.
  - pose proof (length_random_choice01 (len df) g) as L.
    destruct (random_choice01 (len df) g) as [xs g1]. simpl in L.
    intros [= <- <-]. now exists int64, xs.
Qed.

Lemma is_error_total (df : DataFrame) (g : rng) :
  status_usable df = true -> exists df' g', add_is_error df g = (Ok df', g').
Proof.
  unfold status_usable, add_is_error. destruct (has_column "status" df); simpl.
  - destruct (dtypes df "status"); try discriminate. intros _. eauto.
  - intros _. destruct (random_choice01 (len df) g). eauto.
Qed.

Lemma is_error_failure (df : DataFrame) (g : rng) :
  status_usable df = false -> add_is_error df g = (Raise "AttributeError", g).
Proof.
  unfold status_usable, add_is_error. destruct (has_column "status" df); simpl.
  - destruct (dtypes df "status"); try discriminate; reflexivity.
  - discriminate.
Qed.

(** *** Lines 101-121 *)

Lemma name_not_status (c : string) : names_a_date c -> "status" <> c.
Proof.
  intros H <-. apply is_date_name_iff in H. discriminate.
Qed.

Lemma status_usable_normalized (c : string) (raw_df : DataFrame) (g : rng) :
  names_a_date c ->
  status_usable (fst (add_processing_time c
                        (add_date c (dropna c (coerce_dates c raw_df))) g))
  = status_usable raw_df.
Proof.
  intros Hc. apply name_not_status in Hc. unfold status_usable.
  rewrite processing_time_has_column, has_column_dated, processing_time_status_dtype.
  unfold add_date, coerce_dates, assign, dropna. cbn [dtypes].
  destruct (String.eqb_spec "status" c); [contradiction|].
  change (String.eqb "status" "date") with false.
  change (String.eqb "status" "processing_time") with false.
  now rewrite !orb_false_r.
Qed.

Lemma normalize_unfold (c : string) (raw_df : DataFrame) (g : rng) :
  normalize c raw_df g =
  let r := add_processing_time c (add_date c (dropna c (coerce_dates c raw_df))) g in
  add_is_error (fst r) (snd r).
Proof.
  unfold normalize.
  now destruct (add_processing_time c (add_date c (dropna c (coerce_dates c raw_df))) g).
Qed.

Lemma normalize_total (c : string) (raw_df : DataFrame) (g : rng) :
  names_a_date c -> status_usable raw_df = true ->
  exists df' g', normalize c raw_df g = (Ok df', g').
Proof.
  intros Hc Hs. rewrite normalize_unfold. cbv zeta.
  apply is_error_total. now rewrite status_usable_normalized.
Qed.

Lemma normalize_failure (c : string) (raw_df : DataFrame) (g : rng) :
  names_a_date c -> status_usable raw_df = false ->
  fst (normalize c raw_df g) = Raise "AttributeError".
Proof.
  intros Hc Hs. rewrite normalize_unfold. cbv zeta.
  rewrite is_error_failure; [reflexivity|]. now rewrite status_usable_normalized.
Qed.

(** The columns of a normalized frame other than [is_error] are those the
    frame had after lines 107-115. *)
Lemma normalize_Ok (c : string) (raw_df df' : DataFrame) (g g' : rng) :
  normalize c raw_df g = (Ok df', g') ->
  let df := fst (add_processing_time c
                   (add_date c (dropna c (coerce_dates c raw_df))) g) in
  len df' = length (parsed_rows c raw_df) /\
  forall k, k <> "is_error" -> column df' k = column df k.
Proof.
  rewrite normalize_unfold. cbv zeta. intros H.
  apply is_error_Ok in H as (dt & vals & Hlen & ->). split.
  - rewrite len_assign by assumption.
    now rewrite processing_time_len, len_dated.
  - intros k Hk. now apply column_assign_other.
Qed.

Lemma normalize_date_column (c : string) (raw_df df' : DataFrame) (g g' : rng) :
  normalize c raw_df g = (Ok df', g') ->
  column df' "date" = map (fun p => VDate (date_of (snd p))) (parsed_rows c raw_df).
Proof.
  intros H. apply normalize_Ok in H as [_ H].
  rewrite H by discriminate.
  rewrite processing_time_keeps by discriminate. apply date_column.
Qed.


(** *** Lines 126-133 *)

Lemma groupby_dates (df : DataFrame) :
  map date (groupby_agg df) = group_keys (column df "date").
Proof. unfold groupby_agg. rewrite map_map. simpl. apply map_id. Qed.

Lemma sorted_dates (l : list DailyRow) :
  StronglySorted Z.lt (map date l) -> StronglySorted date_lt l.
Proof.
  induction l as [|x l IH]; simpl; intros H; [constructor|].
  inversion H as [|? ? Hs Hall]; subst. constructor; [now apply IH|].
  rewrite Forall_forall in *. intros y Hy. apply Hall. now apply in_map.
Qed.

(** The groups come out in ascending date order, so that sorting them
    again changes nothing. *)
Lemma aggregate_sorted (n : nat) (df : DataFrame) :
  aggregate n df = tail n (map scale_error_rate (groupby_agg df)).
Proof.
  unfold aggregate. rewrite sort_values_id; [reflexivity|].
  apply sorted_dates. rewrite map_map. simpl.
  change (map (fun x => date x) (groupby_agg df)) with (map date (groupby_agg df)).
  rewrite groupby_dates. apply group_keys_sorted.
Qed.

Lemma aggregate_key_fields (n : nat) (df : DataFrame) :
  map key_fields (map with_status (aggregate n df))
  = tail n (day_counts (column df "date")).
Proof.
  rewrite aggregate_sorted, !tail_map. f_equal.
  unfold groupby_agg, day_counts. rewrite !map_map. apply map_ext. intros k.
  unfold key_fields. simpl. f_equal. f_equal.
  unfold in_group. apply (column_filter "date" (is_day k)).
Qed.

Lemma groupby_length (c : string) (raw_df df' : DataFrame) (g g' : rng) :
  normalize c raw_df g = (Ok df', g') ->
  length (groupby_agg df') = distinct_dates c raw_df.
Proof.
  intros H. unfold groupby_agg. rewrite length_map, group_keys_length.
  unfold distinct_dates. f_equal. f_equal.
  rewrite (normalize_date_column _ _ _ _ _ H). unfold event_dates.
  induction (parsed_rows c raw_df) as [|p l IH]; simpl; [reflexivity | now rewrite IH].
Qed.

(** *** The whole pipeline *)

Lemma pipeline_detected (n : nat) (c : string) (raw_df : DataFrame) (g : rng) :
  detect_date_col (columns raw_df) = Some c ->
  pipeline n raw_df g =
  (outcome_map (fun df => map with_status (aggregate n df)) (fst (normalize c raw_df g)),
   snd (normalize c raw_df g)).
Proof.
  intros H. unfold pipeline. rewrite H.
  now destruct (normalize c raw_df g) as [[df'|msg|cls] g'].
Qed.

Lemma detected_name (cols : list string) (c : string) :
  detect_date_col cols = Some c -> names_a_date c /\ In c cols.
Proof.
  intros H. apply detect_first in H as (b & a & -> & Hc & _). split; [assumption|].
  apply in_elt.
Qed.

Lemma pipeline_not_stopped (n : nat) (c : string) (raw_df : DataFrame) (g : rng) :
  detect_date_col (columns raw_df) = Some c ->
  (exists daily, fst (pipeline n raw_df g) = Ok daily) \/
  fst (pipeline n raw_df g) = Raise "AttributeError".
Proof.
  intros H. rewrite (pipeline_detected _ _ _ _ H). simpl.
  destruct (detected_name _ _ H) as [Hc _].
  destruct (status_usable raw_df) eqn:E.
  - destruct (normalize_total c raw_df g Hc E) as (df' & g' & ->). left. simpl. eauto.
  - right. now rewrite normalize_failure.
Qed.

(** C2. The pipeline stops with MissingTimestampColumn if and only if no
    column name contains the word date in any mix of cases.  When it does,
    it stops at once: no daily metrics come out and the generator has not
    been touched.  When some name contains the word, the first such column
    in column order is the one selected, and the outcome is not
    MissingTimestampColumn. *)
Theorem C2_missing_timestamp_column (n : nat) (raw_df : DataFrame) (g : rng) :
  let no_date_name := forall c, In c (columns raw_df) -> ~ has_date_word c in
  (fst (pipeline n raw_df g) = MissingTimestampColumn <-> no_date_name) /\
  (no_date_name ->
     pipeline n raw_df g = (MissingTimestampColumn, g) /\
     forall daily, fst (pipeline n raw_df g) <> Ok daily) /\
  (~ no_date_name ->
     exists before col after,
       columns raw_df = before ++ col :: after /\
       has_date_word col /\
       (forall c, In c before -> ~ has_date_word c) /\
       detect_date_col (columns raw_df) = Some col /\
       fst (pipeline n raw_df g) <> MissingTimestampColumn).
Proof.
  cbv zeta.
  assert (Hiff : (forall c, In c (columns raw_df) -> ~ has_date_word c) <->
                 detect_date_col (columns raw_df) = None).
  { rewrite detect_none. split; intros H c Hc Hn; apply (H c Hc);
      now apply names_a_date_word. }
  rewrite Hiff.
  assert (Hnone : detect_date_col (columns raw_df) = None ->
                  pipeline n raw_df g = (MissingTimestampColumn, g)).
  { intros H. unfold pipeline. now rewrite H. }
  assert (Hsome : forall c, detect_date_col (columns raw_df) = Some c ->
                            fst (pipeline n raw_df g) <> MissingTimestampColumn).
  { intros c H. destruct (pipeline_not_stopped n c raw_df g H) as [[d ->]| ->];
      discriminate. }
  split; [split|split].
  - intros H. destruct (detect_date_col (columns raw_df)) as [c|] eqn:E;
      [|reflexivity]. now elim (Hsome c).
  - intros H. now rewrite Hnone.
  - intros H. split; [now apply Hnone|]. rewrite (Hnone H). discriminate.
  - intros H. destruct (detect_date_col (columns raw_df)) as [c|] eqn:E;
      [|now elim H].
    pose proof E as E'. apply detect_first in E' as (b & a & Hcols & Hc & Hb).
    exists b, c, a. split; [exact Hcols|]. split; [now apply names_a_date_word|].
    split; [intros x Hx Hn; apply (Hb x Hx); now apply names_a_date_word|].
    split; [reflexivity|]. now apply (Hsome c).
Qed.

Lemma is_error_same (df : DataFrame) (g1 g2 : rng) :
  has_column "status" df = true ->
  fst (add_is_error df g1) = fst (add_is_error df g2).
Proof.
  intros H. unfold add_is_error. rewrite H. now destruct (dtypes df "status").
Qed.

Lemma normalize_both_columns (c : string) (raw_df : DataFrame) (g1 g2 : rng) :
  has_column "resolved_date" raw_df = true ->
  has_column "status" raw_df = true ->
  fst (normalize c raw_df g1) = fst (normalize c raw_df g2).
Proof.
  intros Hr Hs. rewrite !normalize_unfold. cbv zeta.
  rewrite !processing_time_resolved
    by (rewrite has_column_dated, Hr; reflexivity).
  cbv zeta. simpl fst. simpl snd. apply is_error_same.
  rewrite !has_column_assign, has_column_dated, Hs. reflexivity.
Qed.

Lemma day_counts_length (c : string) (raw_df df' : DataFrame) (g g' : rng) :
  normalize c raw_df g = (Ok df', g') ->
  length (day_counts (column df' "date")) = distinct_dates c raw_df.
Proof.
  intros H. unfold day_counts. rewrite length_map.
  rewrite <- (groupby_length _ _ _ _ _ H). unfold groupby_agg. now rewrite length_map.
Qed.

Lemma tail_of_tail {A : Type} (n1 n2 : nat) (l : list A) :
  (n1 <= n2)%nat -> tail n1 l = tail (Nat.min n1 (length l)) (tail n2 l).
Proof.
  intros H. rewrite tail_tail by lia. unfold tail. f_equal. lia.
Qed.

(** C6, as the code has it.  For a window [n1] and a larger window [n2]
    on the same raw table, let [k] be [min n1 D], [D] being the number of
    distinct dates.  Whatever the generator states of the two runs, the
    output for [n1] has [k] days and agrees with the last [k] days of the
    output for [n2] on date and ticket count.  It is that suffix in every
    field when the two runs start from the same generator state, and when
    the table has both a [resolved_date] and a [status] column, so that no
    random fallback is taken.  Runs that fail, fail alike. *)
Theorem C6_monotonic_truncation
    (n1 n2 : nat) (raw_df : DataFrame) (g1 g2 : rng) :
  (n1 < n2)%nat ->
  match fst (pipeline n1 raw_df g1), fst (pipeline n2 raw_df g2) with
  | Ok out1, Ok out2 =>
      exists date_col,
        detect_date_col (columns raw_df) = Some date_col /\
        let k := Nat.min n1 (distinct_dates date_col raw_df) in
        length out1 = k /\
        map key_fields out1 = tail k (map key_fields out2) /\
        (g1 = g2 \/
         (has_column "resolved_date" raw_df = true /\
          has_column "status" raw_df = true) ->
         out1 = tail k out2)
  | Stop msg1, Stop msg2 => msg1 = msg2
  | Raise cls1, Raise cls2 => cls1 = cls2
  | _, _ => False
  end.
Proof.
  intros Hlt. destruct (detect_date_col (columns raw_df)) as [c|] eqn:E.
  2: { unfold pipeline. rewrite E. reflexivity. }
  rewrite !(pipeline_detected _ _ _ _ E). cbn [fst].
  destruct (detected_name _ _ E) as [Hc _].
  destruct (status_usable raw_df) eqn:Es.
  2: { now rewrite !normalize_failure. }
  destruct (normalize_total c raw_df g1 Hc Es) as (d1 & h1 & E1).
  destruct (normalize_total c raw_df g2 Hc Es) as (d2 & h2 & E2).
  rewrite E1, E2. cbn [fst outcome_map].
  exists c. split; [reflexivity|]. cbv zeta.
  pose proof (groupby_length _ _ _ _ _ E1) as HD1.
  pose proof (day_counts_length _ _ _ _ _ E2) as HD2.
  split; [|split].
  - rewrite length_map, aggregate_sorted, tail_length, length_map. now rewrite HD1.
  - rewrite !aggregate_key_fields.
    rewrite (normalize_date_column _ _ _ _ _ E1), <- (normalize_date_column _ _ _ _ _ E2).
    rewrite <- HD2. apply tail_of_tail. lia.
  - intros Hsame.
    assert (Hd : d1 = d2).
    { destruct Hsame as [->|[Hr Hs]].
      - rewrite E1 in E2. now injection E2.
      - pose proof (normalize_both_columns c raw_df g1 g2 Hr Hs) as H.
        rewrite E1, E2 in H. now injection H. }
    subst d2. rewrite <- HD1.
    replace (length (groupby_agg d1))
      with (length (map with_status (map scale_error_rate (groupby_agg d1))))
      by now rewrite !length_map.
    rewrite !aggregate_sorted, !tail_map. apply tail_of_tail. lia.
Qed.

Lemma is_error_status (df : DataFrame) (g1 g2 : rng) :
  has_column "status" df = true ->
  fst (add_is_error df g1) = fst (add_is_error df g2).
Proof.
  intros H. unfold add_is_error. rewrite H. now destruct (dtypes df "status").
Qed.

(** C9. Two runs on the same raw table and window, whatever the states
    of the random generator, agree on the date and the ticket count of
    every day (and fail alike when they fail).  When the table has both a
    [resolved_date] and a [status] column, the two runs agree on the whole
    outcome, every field of every day included. *)
Theorem C9_idempotence (n : nat) (raw_df : DataFrame) (g1 g2 : rng) :
  outcome_map (map key_fields) (fst (pipeline n raw_df g1))
  = outcome_map (map key_fields) (fst (pipeline n raw_df g2)) /\
  (has_column "resolved_date" raw_df = true ->
   has_column "status" raw_df = true ->
   fst (pipeline n raw_df g1) = fst (pipeline n raw_df g2)).
Proof.
  destruct (detect_date_col (columns raw_df)) as [c|] eqn:E.
  2: { unfold pipeline. rewrite E. split; reflexivity. }
  rewrite !(pipeline_detected _ _ _ _ E). simpl.
  destruct (detected_name _ _ E) as [Hc _]. split.
  - destruct (status_usable raw_df) eqn:Es.
    + destruct (normalize_total c raw_df g1 Hc Es) as (d1 & h1 & E1).
      destruct (normalize_total c raw_df g2 Hc Es) as (d2 & h2 & E2).
      rewrite E1, E2. simpl. f_equal. rewrite !aggregate_key_fields.
      now rewrite (normalize_date_column _ _ _ _ _ E1),
                  (normalize_date_column _ _ _ _ _ E2).
    + now rewrite !normalize_failure.
  - intros Hr Hs. f_equal. rewrite !normalize_unfold. cbv zeta.
    rewrite !processing_time_resolved
      by (rewrite has_column_dated, Hr; reflexivity).
    cbv zeta. simpl fst. simpl snd. apply is_error_status.
    rewrite !has_column_assign, has_column_dated, Hs. reflexivity.
Qed.


Lemma lower_isin_counts (v : value) :
  lower_isin ["open"; "pending"] v = VBool (counts_as_error v).
Proof.
  destruct v as [s| | | | | |]; try reflexivity.
  unfold lower_isin, counts_as_error. cbn [existsb].
  rewrite (spells_eqb word_open s well_cased_open),
          (spells_eqb word_pending s well_cased_pending).
  change (lowered word_open) with "open". change (lowered word_pending) with "pending".
  now rewrite orb_false_r.
Qed.

(** C8, as the code has it.  On a frame whose [status] column is a column
    of strings (an object column), every row gets an [is_error] cell, a
    boolean that is true exactly when the status cell is a string that is
    the word open or the word pending in any mix of cases; any other string,
    and any cell that is no string, gives false.  On a [status] column of
    another dtype the [.str] accessor raises AttributeError and no flag is
    derived. *)
Theorem C8_is_error_flag (df : DataFrame) (g : rng) :
  has_column "status" df = true ->
  match dtypes df "status" with
  | object_ =>
      exists df',
        add_is_error df g = (Ok df', g) /\
        rows df'
        = map (fun r => upd r "is_error" (VBool (counts_as_error (r "status"))))
              (rows df)
  | _ => add_is_error df g = (Raise "AttributeError", g)
  end.
Proof.
  intros H. unfold add_is_error. rewrite H.
  destruct (dtypes df "status"); try reflexivity.
  eexists. split; [reflexivity|]. simpl. unfold column. rewrite map_map.
  rewrite (set_cells_map "is_error"
             (fun r => lower_isin ["open"; "pending"] (r "status"))).
  apply map_ext. intros r. now rewrite lower_isin_counts.
Qed.

Lemma aggregate_In (n : nat) (df : DataFrame) (row : DailyRow) :
  In row (aggregate n df) ->
  exists k r,
    In r (rows df) /\ in_group k r = true /\
    avg_processing_time row
    = mean (map (fun r => as_float (r "processing_time"))
                (filter (in_group k) (rows df))).
Proof.
  rewrite aggregate_sorted. intros H. apply tail_In in H.
  unfold groupby_agg in H. rewrite map_map in H.
  apply in_map_iff in H as (k & <- & Hk).
  apply group_keys_In, date_cells_In in Hk.
  unfold column in Hk. apply in_map_iff in Hk as (r & Hr & Hin).
  exists k, r. repeat split; auto.
  unfold in_group, is_day. rewrite Hr. apply Z.eqb_refl.
Qed.

(** C10. When the first column whose name contains ["date"] is
    [resolved_date] itself, the primary and the secondary timestamp are
    the same cell: every normalized row has a processing time of zero
    minutes, and so has every day of the output as its average.  The run
    does produce an output as soon as the status column is usable. *)
Theorem C10_resolved_date_is_primary (n : nat) (raw_df : DataFrame) (g : rng) :
  detect_date_col (columns raw_df) = Some "resolved_date" ->
  (forall df' g',
      normalize "resolved_date" raw_df g = (Ok df', g') ->
      Forall (fun r => is_zero (as_float (r "processing_time"))) (rows df')) /\
  (forall daily g',
      pipeline n raw_df g = (Ok daily, g') ->
      Forall (fun m => is_zero (avg_processing_time (metrics m))) daily) /\
  (status_usable raw_df = true ->
   exists daily g', pipeline n raw_df g = (Ok daily, g')).
Proof.
  intros E. destruct (detected_name _ _ E) as [Hc Hin].
  assert (Hhas : has_column "resolved_date" raw_df = true).
  { unfold has_column. apply existsb_exists. exists "resolved_date". now split. }
  assert (Hrows : forall df' g',
             normalize "resolved_date" raw_df g = (Ok df', g') ->
             Forall (fun r => is_zero (as_float (r "processing_time"))) (rows df')).
  { intros df' g' Hn.
    cut (Forall (fun v => is_zero (as_float v)) (column df' "processing_time")).
    { unfold column. now rewrite Forall_map. }
    apply normalize_Ok in Hn as [_ Hcol]. rewrite Hcol by discriminate.
    rewrite processing_time_resolved by (rewrite has_column_dated, Hhas; reflexivity).
    cbv zeta. simpl fst.
    assert (Hlen : length (to_datetime
                             (column (add_date "resolved_date"
                                        (dropna "resolved_date"
                                           (coerce_dates "resolved_date" raw_df)))
                                     "resolved_date"))
                   = len (add_date "resolved_date"
                            (dropna "resolved_date"
                               (coerce_dates "resolved_date" raw_df)))).
    { now rewrite length_to_datetime, length_column. }
    rewrite column_assign_same.
    2:{ rewrite length_minutes_between;
          rewrite ?length_to_datetime, ?length_column; reflexivity. }
    rewrite (column_assign_same _ _ _ _ Hlen).
    rewrite primary_column by discriminate.
    rewrite !to_datetime_timestamps, minutes_between_map.
    apply Forall_map, Forall_forall. intros p _. simpl.
    eexists. split; [reflexivity|]. rewrite Z.sub_diag. reflexivity. }
  split; [exact Hrows|]. split.
  - intros daily g'. rewrite (pipeline_detected _ _ _ _ E).
    destruct (normalize "resolved_date" raw_df g) as [[df'|msg|cls] h] eqn:En;
      simpl; intros [= <- <-].
    specialize (Hrows df' h eq_refl).
    apply Forall_map, Forall_forall. intros row Hrow. simpl.
    apply aggregate_In in Hrow as (k & r & Hr & Hk & ->).
    apply mean_zero.
    + intros Hnil. apply map_eq_nil in Hnil.
      assert (Hf : In r (filter (in_group k) (rows df'))) by now apply filter_In.
      rewrite Hnil in Hf. contradiction.
    + apply Forall_map, Forall_forall. intros r' Hr'.
      apply filter_In in Hr' as [Hr' _].
      rewrite Forall_forall in Hrows. now apply Hrows.
  - intros Hs. rewrite (pipeline_detected _ _ _ _ E).
    destruct (normalize_total "resolved_date" raw_df g Hc Hs) as (df' & g' & ->).
    simpl. eauto.
Qed.


(** *** Rows that did not parse *)








(** *** Processing time, when the primary column is not called [date] *)

Local Abbreviation records := (records parse_datetime).

Lemma processing_time_column (c : string) (raw_df df' : DataFrame) (g g' : rng) :
  c <> "date" -> c <> "resolved_date" ->
  has_column "resolved_date" raw_df = true ->
  normalize c raw_df g = (Ok df', g') ->
  column df' "processing_time"
  = map (fun p =>
           minutes_cell
             (to_datetime_cell
                (map (fun p => fst p "resolved_date") (parsed_rows c raw_df))
                (fst p "resolved_date"))
             (VTimestamp (snd p)))
        (parsed_rows c raw_df).
Proof.
  intros Hd Hr Hhas Hn. apply normalize_Ok in Hn as [_ Hcol].
  rewrite Hcol by discriminate.
  rewrite processing_time_resolved by (rewrite has_column_dated, Hhas; reflexivity).
  cbv zeta. simpl fst.
  set (N1 := add_date c (dropna c (coerce_dates c raw_df))).
  assert (Hlen : length (to_datetime (column N1 "resolved_date")) = len N1)
    by now rewrite length_to_datetime, length_column.
  rewrite column_assign_same.
  2:{ rewrite length_minutes_between;
        rewrite ?length_to_datetime, ?length_column; reflexivity. }
  rewrite (column_assign_same _ _ _ _ Hlen).
  rewrite (column_assign_other _ _ _ _ _ Hr Hlen).
  unfold N1. rewrite primary_column by assumption.
  rewrite other_column by (try discriminate; congruence).
  rewrite to_datetime_timestamps. unfold to_datetime at 1. rewrite map_map.
  apply minutes_between_map.
Qed.

Lemma group_cells (a b : string) (p : value -> bool) (h : value -> float)
      (rs : list Row) :
  map (fun r => h (r b)) (filter (fun r => p (r a)) rs)
  = map (fun x => h (snd x))
        (filter (fun x => p (fst x))
                (combine (map (fun r => r a) rs) (map (fun r => r b) rs))).
Proof.
  induction rs as [|r rs IH]; simpl; [reflexivity|].
  destruct (p (r a)); simpl; now rewrite IH.
Qed.

Lemma aggregate_row (n : nat) (df : DataFrame) (row : DailyRow) :
  In row (aggregate n df) ->
  let grp := filter (in_group (date row)) (rows df) in
  daily_tickets row = count (map (fun r => r "date") grp) /\
  avg_processing_time row = mean (map (fun r => as_float (r "processing_time")) grp) /\
  error_rate row = fmul (mean (map (fun r => as_float (r "is_error")) grp)) 100.
Proof.
  rewrite aggregate_sorted. intros H. apply tail_In in H.
  unfold groupby_agg in H. rewrite map_map in H.
  apply in_map_iff in H as (k & <- & Hk). simpl. repeat split.
Qed.

Lemma day_minutes (k : Z) (m : Row * Z -> value) (P : list (Row * Z)) :
  map (fun x => as_float (snd x))
      (filter (fun x => is_day k (fst x))
              (combine (map (fun p => VDate (date_of (snd p))) P) (map m P)))
  = minutes_of_day k (map (fun p => (date_of (snd p), as_float (m p))) P).
Proof.
  unfold minutes_of_day. induction P as [|p P IH]; simpl; [reflexivity|].
  destruct (date_of (snd p) =? k)%Z; simpl; now rewrite IH.
Qed.

Lemma day_tickets (k : Z) (m : Row * Z -> value) (P : list (Row * Z)) :
  count (filter (is_day k) (map (fun p => VDate (date_of (snd p))) P))
  = length (minutes_of_day k (map (fun p => (date_of (snd p), as_float (m p))) P)).
Proof.
  unfold minutes_of_day, count. rewrite length_map.
  induction P as [|p P IH]; simpl; [reflexivity|].
  destruct (date_of (snd p) =? k)%Z; simpl; now rewrite IH.
Qed.

(** The rule of C4 on every table whose primary column is called neither
    [date] nor [resolved_date]: the average of a day is the mean of
    (secondary - primary) in minutes over the records of that day whose
    secondary timestamp parsed (negative values as they are), while the
    ticket count of the day is the number of all its records. *)
Theorem processing_time_mean
    (n : nat) (c : string) (raw_df : DataFrame) (g g' : rng)
    (daily : list DailyMetrics) :
  detect_date_col (columns raw_df) = Some c ->
  c <> "date" -> c <> "resolved_date" ->
  has_column "resolved_date" raw_df = true ->
  pipeline n raw_df g = (Ok daily, g') ->
  Forall (fun m =>
            let day := minutes_of_day (date (metrics m)) (records c raw_df) in
            avg_processing_time (metrics m) = mean day /\
            daily_tickets (metrics m) = length day)
         daily.
Proof.
  intros E Hd Hr Hhas. rewrite (pipeline_detected _ _ _ _ E).
  destruct (normalize c raw_df g) as [[df'|msg|cls] h] eqn:En; simpl;
    intros [= <- <-].
  apply Forall_map, Forall_forall. intros row Hrow. cbv zeta. simpl.
  apply aggregate_row in Hrow as (Ht & Ha & _). rewrite Ht, Ha. clear Ht Ha.
  unfold in_group.
  rewrite (group_cells "date" "processing_time" (is_day (date row)) as_float).
  rewrite (column_filter "date" (is_day (date row))).
  fold (column df' "date") (column df' "processing_time").
  rewrite (normalize_date_column _ _ _ _ _ En).
  rewrite (processing_time_column _ _ _ _ _ Hd Hr Hhas En).
  unfold records. cbv zeta. split.
  - f_equal. apply day_minutes.
  - apply day_tickets.
Qed.

End PipelineFacts.

(** ** The properties on the sample tables *)

Lemma C2_missing_timestamp_column_witness :
  Sample.run 7 Sample.notes_only 3 = (MissingTimestampColumn, 3%nat) /\
  has_date_word "Created Date" /\
  detect_date_col (columns Sample.bare) = Some "Created Date" /\
  fst (Sample.run 7 Sample.bare 0) <> MissingTimestampColumn.
Proof.
  destruct (C2_missing_timestamp_column Sample.parse nat Sample.sample
              7 Sample.notes_only 3%nat) as (_ & Hnone & _).
  destruct (C2_missing_timestamp_column Sample.parse nat Sample.sample
              7 Sample.bare 0%nat) as (_ & _ & Hsome).
  assert (Hw : has_date_word "Created Date").
  { exists "Created ", "Date", "". split; reflexivity. }
  split; [|split; [exact Hw|]].
  - apply Hnone. intros c [<-|[]] (b & w & a & Hc & Hs).
    assert (Hn : names_a_date "notes")
      by (apply names_a_date_word; now exists b, w, a).
    apply is_date_name_iff in Hn. discriminate.
  - destruct Hsome as (b & col & a & _ & _ & _ & Hd & H).
    + intros H. apply (H "Created Date"); [now left | exact Hw].
    + split; [reflexivity | exact H].
Defined.


(** C5, as the specification has it, fails.  A table none of whose rows
    has a date that parses runs through to an empty frame, and the look-up
    then raises IndexError, not a condition called NoDataAvailable; a date
    string that matches no row raises the same IndexError, not
    DateNotFound. *)
Lemma C5_counterexample :
  fst (Sample.run 7 Sample.unparsable 0) = Ok [] /\
  selected_row [] None = Raise "IndexError" /\
  selected_row [] None <> Raise "NoDataAvailable" /\
  selected_row [with_status (Sample.day 19723 1 6 0)] (Some "2024-01-02")
  <> Raise "DateNotFound".
Proof.
  repeat split; try reflexivity; vm_compute; discriminate.
Qed.

(** C6, as the specification has it, fails.  A table with a creation date
    only takes both random fallbacks; two runs with windows 1 and 7 then
    draw different numbers, and the one day of the first is not the last
    day of the second. *)
Lemma C6_counterexample :
  exists out1 out2,
    fst (Sample.run 1 Sample.bare 0) = Ok out1 /\
    fst (Sample.run 7 Sample.bare 4) = Ok out2 /\
    out1 <> tail (Nat.min 1 (distinct_dates Sample.parse "Created Date" Sample.bare))
                 out2.
Proof.
  eexists _, _. split; [reflexivity|]. split; [reflexivity|].
  vm_compute. intros H. discriminate H.
Qed.

Lemma C6_monotonic_truncation_witness :
  (1 < 2)%nat /\
  exists out1 out2,
    fst (Sample.run 1 Sample.tickets 0) = Ok out1 /\
    fst (Sample.run 2 Sample.tickets 4) = Ok out2 /\
    map (fun m => date (metrics m)) out1 = [19725%Z] /\
    out1 = tail 1 out2.
Proof.
  split; [lia|].
  pose proof (C6_monotonic_truncation Sample.parse nat Sample.sample
                1 2 Sample.tickets 0%nat 4%nat ltac:(lia)) as H.
  change (pipeline Sample.parse nat Sample.sample 1 Sample.tickets 0%nat)
    with (Sample.run 1 Sample.tickets 0) in H.
  change (pipeline Sample.parse nat Sample.sample 2 Sample.tickets 4%nat)
    with (Sample.run 2 Sample.tickets 4) in H.
  destruct (fst (Sample.run 1 Sample.tickets 0)) as [out1| |] eqn:E1;
    try discriminate E1.
  destruct (fst (Sample.run 2 Sample.tickets 4)) as [out2| |] eqn:E2;
    try discriminate E2.
  destruct H as (c & Hc & _ & _ & Hfull).
  exists out1, out2. split; [reflexivity|]. split; [reflexivity|]. split.
  - injection E1 as <-. reflexivity.
  - injection Hc as <-. apply Hfull. right. split; reflexivity.
Defined.

(** C8, as the specification has it, fails.  A status column of numeric
    codes is no column of strings: the [.str] accessor raises AttributeError
    and the run ends without an [is_error] flag for any row. *)
Lemma C8_counterexample :
  has_column "status" Draws.coded = true /\
  add_is_error nat Sample.sample Draws.coded 0%nat = (Raise "AttributeError", 0%nat) /\
  fst (Sample.run 7 Draws.coded 0) = Raise "AttributeError".
Proof. repeat split. Qed.

Lemma C8_is_error_flag_witness :
  has_column "status" Sample.tickets = true /\
  exists df',
    add_is_error nat Sample.sample Sample.tickets 0%nat = (Ok df', 0%nat) /\
    map (fun r : Row => (r "status", r "is_error")) (rows df')
    = [(VStr "Open", VBool true); (VStr "Resolved", VBool false);
       (VStr "PENDING", VBool true); (VStr "closed", VBool false)].
Proof.
  split; [reflexivity|].
  destruct (C8_is_error_flag nat Sample.sample Sample.tickets 0%nat eq_refl)
    as (df' & Hrun & Hrows).
  exists df'. split; [exact Hrun|]. rewrite Hrows. reflexivity.
Defined.

Lemma C9_idempotence_witness :
  has_column "resolved_date" Sample.tickets = true /\
  has_column "status" Sample.tickets = true /\
  fst (Sample.run 7 Sample.tickets 0) = fst (Sample.run 7 Sample.tickets 4) /\
  outcome_map (map key_fields) (fst (Sample.run 7 Sample.bare 0))
  = outcome_map (map key_fields) (fst (Sample.run 7 Sample.bare 4)).
Proof.
  split; [reflexivity|]. split; [reflexivity|]. split.
  - apply (C9_idempotence Sample.parse nat Sample.sample 7 Sample.tickets 0%nat 4%nat);
      reflexivity.
  - apply (C9_idempotence Sample.parse nat Sample.sample 7 Sample.bare 0%nat 4%nat).
Defined.

Lemma C10_resolved_date_is_primary_witness :
  detect_date_col (columns Sample.resolved_first) = Some "resolved_date" /\
  exists daily g',
    Sample.run 7 Sample.resolved_first 0 = (Ok daily, g') /\
    Forall (fun m => is_zero (avg_processing_time (metrics m))) daily.
Proof.
  split; [reflexivity|].
  destruct (C10_resolved_date_is_primary Sample.parse nat Sample.sample
              7 Sample.resolved_first 0%nat eq_refl) as (_ & Hdaily & Hrun).
  destruct (Hrun eq_refl) as (daily & g' & E).
  exists daily, g'. split; [exact E|]. exact (Hdaily daily g' E).
Defined.

Lemma processing_time_mean_witness :
  exists daily g',
    Sample.run 7 Sample.tickets 0 = (Ok daily, g') /\
    Forall (fun m =>
              let day := minutes_of_day (date (metrics m))
                           (records Sample.parse "created_date" Sample.tickets) in
              avg_processing_time (metrics m) = mean day /\
              daily_tickets (metrics m) = length day)
           daily.
Proof.
  exists (match fst (Sample.run 7 Sample.tickets 0) with Ok d => d | _ => [] end),
         (snd (Sample.run 7 Sample.tickets 0)).
  split; [reflexivity|].
  apply (processing_time_mean Sample.parse nat Sample.sample
           7 "created_date" Sample.tickets 0%nat
           (snd (Sample.run 7 Sample.tickets 0)));
    try discriminate; reflexivity.
Defined.

(** C4 at a table whose primary column is called [date].  Line 104
    overwrites that column with the calendar dates, so that line 111
    subtracts midnight of the day instead of the primary timestamp: a ticket
    created at 10:00 and resolved at 10:06 comes out with 606 minutes, where
    (secondary - primary) is 6 minutes. *)
Theorem C4_primary_named_date :
  exists m q spec_q,
    fst (Sample.run 7 Sample.dated 0) = Ok [m] /\
    avg_processing_time (metrics m) = Some q /\ (q == 606)%Q /\
    mean (minutes_of_day (date (metrics m))
            (records Sample.parse "date" Sample.dated)) = Some spec_q /\
    (spec_q == 6)%Q.
Proof.
  eexists _, _, _. repeat split.
Qed.

(** * Further properties of the script *)

(** ** Counting *)

Lemma count_is_day (k : Z) (vs : list value) :
  count (filter (is_day k) vs) = occurrences k (date_cells vs).
Proof.
  unfold count, occurrences. induction vs as [|v vs IH]; simpl; [reflexivity|].
  destruct v; simpl; try exact IH.
  destruct (day =? k)%Z; simpl; now rewrite IH.
Qed.

Lemma list_sum_add {A : Type} (a b : A -> nat) (l : list A) :
  list_sum (map (fun x => a x + b x)%nat l)
  = (list_sum (map a l) + list_sum (map b l))%nat.
Proof. induction l as [|x l IH]; simpl; [reflexivity | rewrite IH; lia]. Qed.

Lemma list_sum_zero {A : Type} (a : A -> nat) (l : list A) :
  (forall x, In x l -> a x = 0%nat) -> list_sum (map a l) = 0%nat.
Proof.
  induction l as [|x l IH]; simpl; intros H; [reflexivity|].
  rewrite (H x) by now left. apply IH. intros y Hy. apply H. now right.
Qed.

Lemma one_hit (d : Z) (K : list Z) :
  NoDup K -> In d K ->
  list_sum (map (fun k => if (d =? k)%Z then 1 else 0)%nat K) = 1%nat.
Proof.
  induction 1 as [|k K Hk Hnd IH]; simpl; [intros []|].
  intros [->|Hin].
  - rewrite Z.eqb_refl. rewrite list_sum_zero; [reflexivity|].
    intros x Hx. destruct (Z.eqb_spec d x); [subst; contradiction | reflexivity].
  - destruct (Z.eqb_spec d k); [subst; contradiction|]. now apply IH.
Qed.

Lemma occurrences_sum (K ds : list Z) :
  NoDup K -> (forall d, In d ds -> In d K) ->
  list_sum (map (fun k => occurrences k ds) K) = length ds.
Proof.
  intros Hnd. induction ds as [|d ds IH]; intros Hin.
  - apply list_sum_zero. reflexivity.
  - rewrite (map_ext _ (fun k => (if (d =? k)%Z then 1 else 0) + occurrences k ds)%nat).
    + rewrite list_sum_add, one_hit, IH; auto.
      * intros x Hx. apply Hin. now right.
      * apply Hin. now left.
    + intros k. unfold occurrences. simpl. now destruct (d =? k)%Z.
Qed.

Lemma day_counts_sum (vs : list value) :
  list_sum (map snd (day_counts vs)) = length (date_cells vs).
Proof.
  unfold day_counts. rewrite map_map. simpl.
  rewrite (map_ext _ (fun k => occurrences k (date_cells vs)))
    by (intros k; apply count_is_day).
  apply occurrences_sum.
  - apply sorted_lt_NoDup, group_keys_sorted.
  - intros d. apply group_keys_In.
Qed.

Lemma date_cells_events (P : list (Row * Z)) :
  date_cells (map (fun p => VDate (date_of (snd p))) P)
  = map (fun p => date_of (snd p)) P.
Proof. induction P as [|p P IH]; simpl; [reflexivity | now rewrite IH]. Qed.

Lemma occurrences_rows_of_day (k : Z) (P : list (Row * Z)) :
  occurrences k (map (fun p => date_of (snd p)) P) = length (rows_of_day k P).
Proof.
  unfold occurrences, rows_of_day. induction P as [|p P IH]; simpl; [reflexivity|].
  destruct (date_of (snd p) =? k)%Z; simpl; now rewrite IH.
Qed.

Lemma percent_of (a b : Q) : (a / b * 100 == 100 * a / b)%Q.
Proof. unfold Qdiv. ring. Qed.

Section MoreFacts.

Variable parse_datetime : list value -> value -> option Z.
Variable rng : Type.
Variable random_sample : rng -> Q * rng.

Local Abbreviation to_datetime_cell := (to_datetime_cell parse_datetime).
Local Abbreviation to_datetime := (to_datetime parse_datetime).
Local Abbreviation random_uniform := (random_uniform rng random_sample).
Local Abbreviation random_choice01 := (random_choice01 rng random_sample).
Local Abbreviation coerce_dates := (coerce_dates parse_datetime).
Local Abbreviation add_processing_time :=
  (add_processing_time parse_datetime rng random_sample).
Local Abbreviation add_is_error := (add_is_error rng random_sample).
Local Abbreviation normalize := (normalize parse_datetime rng random_sample).
Local Abbreviation pipeline := (pipeline parse_datetime rng random_sample).
Local Abbreviation parsed_rows := (parsed_rows parse_datetime).
Local Abbreviation event_dates := (event_dates parse_datetime).
Local Abbreviation distinct_dates := (distinct_dates parse_datetime).
Local Abbreviation records := (records parse_datetime).

Lemma pipeline_Ok (n : nat) (c : string) (raw_df : DataFrame) (g g' : rng)
      (daily : list DailyMetrics) :
  detect_date_col (columns raw_df) = Some c ->
  pipeline n raw_df g = (Ok daily, g') ->
  exists df',
    normalize c raw_df g = (Ok df', g') /\
    daily = map with_status (aggregate n df').
Proof.
  intros E. rewrite (pipeline_detected _ _ _ _ _ _ _ E).
  destruct (normalize c raw_df g) as [[df'|msg|cls] h]; simpl; intros [= <- <-].
  now exists df'.
Qed.

Lemma aggregate_group (n : nat) (df : DataFrame) (row : DailyRow) :
  In row (aggregate n df) ->
  exists r, In r (rows df) /\ in_group (date row) r = true.
Proof.
  rewrite aggregate_sorted. intros H. apply tail_In in H.
  unfold groupby_agg in H. rewrite map_map in H.
  apply in_map_iff in H as (k & <- & Hk). simpl.
  apply group_keys_In, date_cells_In in Hk.
  unfold column in Hk. apply in_map_iff in Hk as (r & Hr & Hin).
  exists r. split; [assumption|]. unfold in_group, is_day. rewrite Hr. apply Z.eqb_refl.
Qed.

Lemma tickets_of_row (n : nat) (c : string) (raw_df df' : DataFrame) (g g' : rng)
      (row : DailyRow) :
  normalize c raw_df g = (Ok df', g') ->
  In row (aggregate n df') ->
  daily_tickets row = length (rows_of_day (date row) (parsed_rows c raw_df)) /\
  (1 <= daily_tickets row)%nat.
Proof.
  intros Hn Hrow.
  assert (Ht : daily_tickets row
               = length (rows_of_day (date row) (parsed_rows c raw_df))).
  { destruct (aggregate_row _ _ _ Hrow) as (Ht & _). rewrite Ht.
    unfold in_group. rewrite (column_filter "date" (is_day (date row))).
    fold (column df' "date").
    rewrite (normalize_date_column _ _ _ _ _ _ _ _ Hn).
    now rewrite count_is_day, date_cells_events, occurrences_rows_of_day. }
  split; [exact Ht|]. rewrite Ht.
  destruct (aggregate_group _ _ _ Hrow) as (r & Hr & Hg).
  assert (Hin : In (r "date") (column df' "date"))
    by (unfold column; exact (in_map (fun r0 : Row => r0 "date") _ _ Hr)).
  rewrite (normalize_date_column _ _ _ _ _ _ _ _ Hn) in Hin.
  apply in_map_iff in Hin as (p & Hp & Hin).
  unfold in_group in Hg. rewrite <- Hp in Hg. simpl in Hg.
  assert (Hf : In p (rows_of_day (date row) (parsed_rows c raw_df)))
    by (apply filter_In; now split).
  destruct (rows_of_day (date row) (parsed_rows c raw_df)); [contradiction|simpl; lia].
Qed.

(** Every day of the output counts exactly the rows of the raw table whose
    primary timestamp parsed to that calendar date, and there is at least
    one: no day is reported without a ticket. *)
Theorem daily_tickets_are_parsed_rows
    (n : nat) (c : string) (raw_df : DataFrame) (g g' : rng)
    (daily : list DailyMetrics) :
  detect_date_col (columns raw_df) = Some c ->
  pipeline n raw_df g = (Ok daily, g') ->
  Forall (fun m =>
            daily_tickets (metrics m)
            = length (rows_of_day (date (metrics m)) (parsed_rows c raw_df)) /\
            (1 <= daily_tickets (metrics m))%nat)
         daily.
Proof.
  intros E Hp. destruct (pipeline_Ok _ _ _ _ _ _ E Hp) as (df' & Hn & ->).
  apply Forall_map, Forall_forall. intros row Hrow. simpl.
  exact (tickets_of_row _ _ _ _ _ _ _ Hn Hrow).
Qed.

(** When the window is at least as long as the number of distinct dates,
    no ticket is lost: the ticket counts of the output add up to the number
    of rows whose primary timestamp parsed. *)
Theorem tickets_conserved
    (n : nat) (c : string) (raw_df : DataFrame) (g g' : rng)
    (daily : list DailyMetrics) :
  detect_date_col (columns raw_df) = Some c ->
  pipeline n raw_df g = (Ok daily, g') ->
  (distinct_dates c raw_df <= n)%nat ->
  total_tickets daily = length (parsed_rows c raw_df).
Proof.
  intros E Hp Hn. destruct (pipeline_Ok _ _ _ _ _ _ E Hp) as (df' & Hnorm & ->).
  unfold total_tickets.
  rewrite (map_ext _ (fun m => snd (key_fields m))) by reflexivity.
  rewrite <- map_map, aggregate_key_fields.
  rewrite tail_all.
  - rewrite day_counts_sum, (normalize_date_column _ _ _ _ _ _ _ _ Hnorm).
    now rewrite date_cells_events, length_map.
  - unfold day_counts. rewrite length_map.
    rewrite <- (groupby_length _ _ _ _ _ _ _ _ Hnorm) in Hn.
    unfold groupby_agg in Hn. now rewrite length_map in Hn.
Qed.

(** ** Means within bounds *)

Lemma Qsum_bounds (lo hi : Q) (qs : list Q) :
  Forall (fun q => lo <= q /\ q <= hi)%Q qs ->
  (Qnat (length qs) * lo <= Qsum qs /\ Qsum qs <= Qnat (length qs) * hi)%Q.
Proof.
  unfold Qnat. induction 1 as [|q qs [Hl Hh] _ [IH1 IH2]].
  - simpl. change (inject_Z 0) with 0%Q. lra.
  - cbn [length Qsum fold_right]. fold (Qsum qs).
    rewrite Nat2Z.inj_succ, <- Z.add_1_r, inject_Z_plus.
    change (inject_Z 1) with 1%Q. lra.
Qed.

Lemma Qnat_pos (n : nat) : (0 < n)%nat -> (0 < Qnat n)%Q.
Proof. intros H. unfold Qnat, Qlt. simpl. lia. Qed.

Lemma defined_in_range (lo hi : Q) (xs : list float) :
  Forall (in_range lo hi) xs ->
  Forall (fun q => lo <= q /\ q <= hi)%Q (defined xs) /\
  length (defined xs) = length xs.
Proof.
  induction 1 as [|x xs (q & -> & Hq) _ [IH1 IH2]]; simpl; [now split|].
  split; [now constructor | now rewrite IH2].
Qed.

Lemma mean_in_range (lo hi : Q) (xs : list float) :
  xs <> [] -> Forall (in_range lo hi) xs -> in_range lo hi (mean xs).
Proof.
  intros Hne Hall. destruct (defined_in_range lo hi xs Hall) as [Hq Hlen].
  unfold mean. destruct (defined xs) as [|q qs] eqn:E.
  - destruct xs; [contradiction | discriminate].
  - eexists. split; [reflexivity|].
    destruct (Qsum_bounds lo hi (q :: qs) Hq) as [H1 H2].
    fold (Qnat (length (q :: qs))).
    assert (Hpos : (0 < Qnat (length (q :: qs)))%Q) by (apply Qnat_pos; simpl; lia).
    split.
    + apply Qle_shift_div_l; [assumption|]. lra.
    + apply Qle_shift_div_r; [assumption|]. lra.
Qed.

Lemma group_in_range (lo hi : Q) (k : Z) (col : string) (rs : list Row) (r : Row) :
  In r rs -> in_group k r = true ->
  Forall (fun v => in_range lo hi (as_float v)) (map (fun r => r col) rs) ->
  in_range lo hi (mean (map (fun r => as_float (r col)) (filter (in_group k) rs))).
Proof.
  intros Hr Hg Hall. apply mean_in_range.
  - intros Hnil. apply map_eq_nil in Hnil.
    assert (Hf : In r (filter (in_group k) rs)) by now apply filter_In.
    rewrite Hnil in Hf. contradiction.
  - apply Forall_map, Forall_forall. intros r' Hr'. apply filter_In in Hr' as [Hr' _].
    rewrite Forall_map, Forall_forall in Hall. now apply Hall.
Qed.

(** ** The error rate *)

Lemma random_choice01_cells (n : nat) (g : rng) :
  Forall (fun v => in_range 0 1 (as_float v)) (fst (random_choice01 n g)).
Proof.
  revert g; induction n as [|n IH]; intros g; simpl; [constructor|].
  destruct (random_sample g) as [u g1]. specialize (IH g1).
  destruct (random_choice01 n g1) as [xs g2]. simpl in *.
  constructor; [|exact IH].
  destruct (Qle_bool (9 # 10) u); eexists; (split; [reflexivity|]); lra.
Qed.

Lemma is_error_cells (df df' : DataFrame) (g g' : rng) :
  add_is_error df g = (Ok df', g') ->
  Forall (fun v => in_range 0 1 (as_float v)) (column df' "is_error").
Proof.
  unfold add_is_error. destruct (has_column "status" df).
  - destruct (dtypes df "status"); intros [= <- <-]; try discriminate.
    rewrite column_assign_same by now rewrite length_map, length_column.
    apply Forall_map, Forall_forall. intros v _.
    destruct v; simpl; try (eexists; (split; [reflexivity|]); lra).
    match goal with |- context [if ?b then _ else _] => destruct b end;
      eexists; (split; [reflexivity|]); lra.
  - pose proof (length_random_choice01 _ random_sample (len df) g) as L.
    pose proof (random_choice01_cells (len df) g) as C.
    destruct (random_choice01 (len df) g) as [xs g1]. simpl in *.
    intros [= <- <-]. now rewrite column_assign_same.
Qed.

(** The error rate of every day of every output is a number between 0 and
    100 (never NaN), whether it comes from the status column or from the
    random fallback. *)
Theorem error_rate_is_a_percentage
    (n : nat) (c : string) (raw_df : DataFrame) (g g' : rng)
    (daily : list DailyMetrics) :
  detect_date_col (columns raw_df) = Some c ->
  pipeline n raw_df g = (Ok daily, g') ->
  Forall (fun m => in_range 0 100 (error_rate (metrics m))) daily.
Proof.
  intros E Hp. destruct (pipeline_Ok _ _ _ _ _ _ E Hp) as (df' & Hn & ->).
  apply Forall_map, Forall_forall. intros row Hrow. simpl.
  destruct (aggregate_row _ _ _ Hrow) as (_ & _ & He). rewrite He.
  destruct (aggregate_group _ _ _ Hrow) as (r & Hr & Hg).
  rewrite normalize_unfold in Hn. cbv zeta in Hn. apply is_error_cells in Hn.
  destruct (group_in_range 0 1 (date row) "is_error" (rows df') r Hr Hg Hn)
    as (q & -> & H0 & H1).
  simpl. eexists. split; [reflexivity|]. lra.
Qed.

Lemma lower_isin_flag (v : value) :
  lower_isin ["open"; "pending"] v = VBool (is_open_or_pending v).
Proof. destruct v; simpl; try reflexivity. now rewrite orb_false_r. Qed.

Lemma is_error_column (c : string) (raw_df df' : DataFrame) (g g' : rng) :
  names_a_date c ->
  has_column "status" raw_df = true ->
  normalize c raw_df g = (Ok df', g') ->
  column df' "is_error"
  = map (fun p => VBool (is_open_or_pending (fst p "status"))) (parsed_rows c raw_df).
Proof.
  intros Hc Hs. rewrite normalize_unfold. cbv zeta. unfold add_is_error.
  rewrite processing_time_has_column, has_column_dated, Hs. simpl orb.
  destruct (dtypes _ "status"); intros [= <- <-]; try discriminate.
  rewrite column_assign_same by now rewrite length_map, length_column.
  rewrite processing_time_keeps by discriminate.
  rewrite other_column; [| now apply name_not_status | discriminate].
  rewrite map_map. apply map_ext. intros p. apply lower_isin_flag.
Qed.

Lemma group_of_day (k : Z) (h : Row * Z -> value) (P : list (Row * Z)) :
  map (fun x => as_float (snd x))
      (filter (fun x => is_day k (fst x))
              (combine (map (fun p => VDate (date_of (snd p))) P) (map h P)))
  = map (fun p => as_float (h p)) (rows_of_day k P).
Proof.
  unfold rows_of_day. induction P as [|p P IH]; simpl; [reflexivity|].
  destruct (date_of (snd p) =? k)%Z; simpl; now rewrite IH.
Qed.

Lemma Qsum_indicator {A : Type} (b : A -> bool) (l : list A) :
  (Qsum (map (fun a => if b a then 1 else 0) l) == Qnat (length (filter b l)))%Q.
Proof.
  unfold Qnat. induction l as [|a l IH]; cbn [map Qsum fold_right filter].
  - reflexivity.
  - fold (Qsum (map (fun a => if b a then 1 else 0)%Q l)). rewrite IH.
    destruct (b a); cbn [length].
    + rewrite Nat2Z.inj_succ, <- Z.add_1_r, inject_Z_plus.
      change (inject_Z 1) with 1%Q. lra.
    + lra.
Qed.

Lemma mean_indicator {A : Type} (b : A -> bool) (l : list A) :
  l <> [] ->
  exists q,
    mean (map (fun a => as_float (VBool (b a))) l) = Some q /\
    (q == Qnat (length (filter b l)) / Qnat (length l))%Q.
Proof.
  intros Hne.
  assert (Hd : defined (map (fun a => as_float (VBool (b a))) l)
               = map (fun a => if b a then 1 else 0)%Q l).
  { clear Hne. induction l as [|a l IH]; simpl; [reflexivity | f_equal; exact IH]. }
  set (xs := map (fun a => as_float (VBool (b a))) l) in *.
  unfold mean. rewrite Hd. destruct l as [|a l]; [contradiction|]. clear Hne Hd xs.
  cbn [map]. eexists. split; [reflexivity|].
  change ((if b a then 1 else 0)%Q :: map (fun a0 => if b a0 then 1 else 0)%Q l)
    with (map (fun a0 => if b a0 then 1 else 0)%Q (a :: l)).
  rewrite Qsum_indicator, length_map. reflexivity.
Qed.

Lemma error_rate_of_row (n : nat) (c : string) (raw_df df' : DataFrame) (g g' : rng)
      (row : DailyRow) :
  names_a_date c ->
  has_column "status" raw_df = true ->
  normalize c raw_df g = (Ok df', g') ->
  In row (aggregate n df') ->
  exists e,
    error_rate row = Some e /\
    (e == 100 * Qnat (length (errors_of_day (date row) (parsed_rows c raw_df)))
          / Qnat (length (rows_of_day (date row) (parsed_rows c raw_df))))%Q.
Proof.
  intros Hc Hs Hn Hrow.
  destruct (aggregate_row _ _ _ Hrow) as (_ & _ & He). rewrite He. clear He.
  destruct (tickets_of_row _ _ _ _ _ _ _ Hn Hrow) as [Ht H1]. rewrite Ht in H1.
  unfold in_group.
  rewrite (group_cells "date" "is_error" (is_day (date row)) as_float).
  fold (column df' "date") (column df' "is_error").
  rewrite (normalize_date_column _ _ _ _ _ _ _ _ Hn).
  rewrite (is_error_column _ _ _ _ _ Hc Hs Hn).
  rewrite (group_of_day (date row)
             (fun p => VBool (is_open_or_pending (fst p "status")))).
  destruct (mean_indicator (fun p : Row * Z => is_open_or_pending (fst p "status"))
              (rows_of_day (date row) (parsed_rows c raw_df))) as (q & -> & Hq).
  { intros Hnil. rewrite Hnil in H1. simpl in H1. lia. }
  simpl. eexists. split; [reflexivity|]. rewrite Hq.
  unfold errors_of_day. apply percent_of.
Qed.




Lemma rate_exceeds (E T : nat) (e : Q) (k : Z) :
  (0 < T)%nat -> (0 < k)%Z ->
  (e == 100 * Qnat E / Qnat T)%Q ->
  (Z.to_nat k * T < 100 * E)%nat ->
  (inject_Z k < e)%Q.
Proof.
  intros HT Hk He H. rewrite He.
  apply Qlt_shift_div_l; [now apply Qnat_pos|].
  unfold Qnat. change 100%Q with (inject_Z 100).
  rewrite <- !inject_Z_mult, <- Zlt_Qlt.
  apply Nat2Z.inj_lt in H. rewrite !Nat2Z.inj_mul, Z2Nat.id in H by lia. exact H.
Qed.

(** With a status column, a day is labelled ActionRequired as soon as more
    than one in twenty of its rows is open or pending, whatever its
    processing times; and a day labelled OnTrack has at most one such row in
    fifty. *)
Theorem open_tickets_drive_status
    (n : nat) (c : string) (raw_df : DataFrame) (g g' : rng)
    (daily : list DailyMetrics) :
  detect_date_col (columns raw_df) = Some c ->
  has_column "status" raw_df = true ->
  pipeline n raw_df g = (Ok daily, g') ->
  Forall (fun m =>
            let day := rows_of_day (date (metrics m)) (parsed_rows c raw_df) in
            let errors := errors_of_day (date (metrics m)) (parsed_rows c raw_df) in
            ((length day < 20 * length errors)%nat -> status m = ActionRequired) /\
            (status m = OnTrack -> (50 * length errors <= length day)%nat))
         daily.
Proof.
  intros E Hs Hp. destruct (pipeline_Ok _ _ _ _ _ _ E Hp) as (df' & Hn & ->).
  destruct (detected_name _ _ E) as [Hc _].
  apply Forall_map, Forall_forall. intros row Hrow. cbv zeta. simpl.
  destruct (error_rate_of_row _ _ _ _ _ _ _ Hc Hs Hn Hrow) as (e & He & Heq).
  destruct (tickets_of_row _ _ _ _ _ _ _ Hn Hrow) as [Ht H1]. rewrite Ht in H1.
  unfold classify. rewrite He. split.
  - intros H.
    assert (G : gt (Some e) 5 = true).
    { apply gt_exceeds. exists e. split; [reflexivity|].
      apply (rate_exceeds _ _ e 5 H1 ltac:(lia) Heq).
      change (Z.to_nat 5) with 5%nat. lia. }
    now rewrite G.
  - intros H.
    destruct (le_lt_dec (50 * length (errors_of_day (date row) (parsed_rows c raw_df)))
                        (length (rows_of_day (date row) (parsed_rows c raw_df))))
      as [Hle|Hlt]; [exact Hle|].
    assert (G : gt (Some e) 2 = true).
    { apply gt_exceeds. exists e. split; [reflexivity|].
      apply (rate_exceeds _ _ e 2 H1 ltac:(lia) Heq).
      change (Z.to_nat 2) with 2%nat. lia. }
    rewrite G in H. destruct (gt (Some e) 5 || gt (avg_processing_time row) 8);
      discriminate.
Qed.

(** ** The fallbacks *)

Lemma random_uniform_cells (low high : Q) (n : nat) (g : rng) :
  unit_samples random_sample -> (low <= high)%Q ->
  Forall (fun v => in_range low high (as_float v))
         (fst (random_uniform low high n g)).
Proof.
  intros Hu Hlh. revert g; induction n as [|n IH]; intros g; simpl; [constructor|].
  destruct (Hu g) as [H0 H1].
  destruct (random_sample g) as [u g1]. specialize (IH g1).
  destruct (random_uniform low high n g1) as [xs g2]. simpl in *.
  constructor; [|exact IH].
  eexists. split; [reflexivity|]. split; nra.
Qed.

Lemma date_col_present (c : string) (raw_df : DataFrame) :
  detect_date_col (columns raw_df) = Some c -> has_column c raw_df = true.
Proof.
  intros E. destruct (detected_name _ _ E) as [_ Hin].
  unfold has_column. apply existsb_exists. exists c. split; [assumption|].
  apply String.eqb_refl.
Qed.

Lemma processing_time_fallback (c : string) (raw_df df' : DataFrame) (g g' : rng) :
  detect_date_col (columns raw_df) = Some c ->
  has_column "resolved_date" raw_df = false ->
  normalize c raw_df g = (Ok df', g') ->
  column df' "processing_time"
  = fst (random_uniform 5 10 (length (parsed_rows c raw_df)) g).
Proof.
  intros E Hr Hn. apply normalize_Ok in Hn as [_ Hcol].
  rewrite Hcol by discriminate. unfold add_processing_time.
  rewrite has_column_dated, Hr.
  assert (Hc : String.eqb "resolved_date" c = false).
  { apply String.eqb_neq. intros <-. apply date_col_present in E. congruence. }
  rewrite Hc. simpl orb. cbv iota. rewrite len_dated.
  pose proof (length_random_uniform _ random_sample 5 10
                (length (parsed_rows c raw_df)) g) as L.
  destruct (random_uniform 5 10 (length (parsed_rows c raw_df)) g) as [xs g1].
  simpl in *. apply column_assign_same. now rewrite len_dated.
Qed.

(** Without a [resolved_date] column, and with a generator whose samples
    lie in [0, 1), the average processing time of every day of the output is
    a number between 5 and 10 minutes: it is never NaN and carries nothing
    of the data. *)
Theorem fallback_processing_time
    (n : nat) (c : string) (raw_df : DataFrame) (g g' : rng)
    (daily : list DailyMetrics) :
  unit_samples random_sample ->
  detect_date_col (columns raw_df) = Some c ->
  has_column "resolved_date" raw_df = false ->
  pipeline n raw_df g = (Ok daily, g') ->
  Forall (fun m => in_range 5 10 (avg_processing_time (metrics m))) daily.
Proof.
  intros Hu E Hr Hp. destruct (pipeline_Ok _ _ _ _ _ _ E Hp) as (df' & Hn & ->).
  apply Forall_map, Forall_forall. intros row Hrow. simpl.
  destruct (aggregate_row _ _ _ Hrow) as (_ & Ha & _). rewrite Ha.
  destruct (aggregate_group _ _ _ Hrow) as (r & Hin & Hg).
  apply (group_in_range 5 10 (date row) "processing_time" (rows df') r Hin Hg).
  fold (column df' "processing_time").
  rewrite (processing_time_fallback _ _ _ _ _ E Hr Hn).
  apply random_uniform_cells; [assumption | lra].
Qed.

(** A table that has both a [resolved_date] and a [status] column is
    processed without a single random draw: the generator comes back in the
    state it was passed in, also when the run fails. *)
Theorem no_draw_with_both_columns (n : nat) (raw_df : DataFrame) (g : rng) :
  has_column "resolved_date" raw_df = true ->
  has_column "status" raw_df = true ->
  snd (pipeline n raw_df g) = g.
Proof.
  intros Hr Hs. destruct (detect_date_col (columns raw_df)) as [c|] eqn:E.
  2: { unfold pipeline. now rewrite E. }
  rewrite (pipeline_detected _ _ _ _ _ _ _ E). simpl.
  rewrite normalize_unfold. cbv zeta.
  rewrite processing_time_resolved by (rewrite has_column_dated, Hr; reflexivity).
  cbv zeta. simpl fst. simpl snd. unfold add_is_error.
  rewrite !has_column_assign, has_column_dated, Hs. simpl orb. cbv iota.
  now destruct (dtypes _ "status").
Qed.

(** ** A day without a resolved timestamp that parses *)

Lemma mean_undefined (xs : list float) :
  Forall (fun x => x = None) xs -> mean xs = None.
Proof.
  intros H. unfold mean.
  replace (defined xs) with (@nil Q); [reflexivity|].
  induction H as [|x xs -> _ IH]; simpl; [reflexivity | exact IH].
Qed.

(** On a table whose primary column is called neither [date] nor
    [resolved_date], a day none of whose rows has a resolved timestamp that
    parses gets NaN as its average processing time.  The comparison with 8
    is then false, so that such a day is labelled on its error rate alone. *)
Theorem unresolved_day_has_no_average
    (n : nat) (c : string) (raw_df : DataFrame) (g g' : rng)
    (daily : list DailyMetrics) :
  detect_date_col (columns raw_df) = Some c ->
  c <> "date" -> c <> "resolved_date" ->
  has_column "resolved_date" raw_df = true ->
  pipeline n raw_df g = (Ok daily, g') ->
  Forall (fun m =>
            Forall (fun x => x = None)
                   (minutes_of_day (date (metrics m)) (records c raw_df)) ->
            avg_processing_time (metrics m) = None /\
            (status m = ActionRequired <-> exceeds (error_rate (metrics m)) 5) /\
            (status m = Monitoring <->
             ~ exceeds (error_rate (metrics m)) 5 /\ exceeds (error_rate (metrics m)) 2))
         daily.
Proof.
  intros E Hd Hr Hhas Hp.
  pose proof (processing_time_mean _ _ _ _ _ _ _ _ _ E Hd Hr Hhas Hp) as Hmean.
  destruct (pipeline_Ok _ _ _ _ _ _ E Hp) as (df' & Hn & ->).
  rewrite Forall_forall in *. intros m Hm Hnone.
  destruct (Hmean m Hm) as [Ha _]. cbv zeta in Ha.
  rewrite (mean_undefined _ Hnone) in Ha. split; [exact Ha|].
  apply in_map_iff in Hm as (row & <- & _). simpl in *.
  unfold classify. rewrite Ha. simpl. rewrite orb_false_r, <- !gt_exceeds.
  destruct (gt (error_rate row) 5), (gt (error_rate row) 2); split; split;
    try reflexivity; try discriminate; intuition (try discriminate).
Qed.

End MoreFacts.

(** ** Selecting a day *)

Lemma first_match (daily : list DailyMetrics) (s : string) (m : DailyMetrics) :
  In m daily -> date_matches (Some s) m = true ->
  exists m', selected_row daily (Some s) = Ok m' /\ In m' daily /\
             Iso.isoformat (date (metrics m')) = s.
Proof.
  intros Hin Hm. unfold selected_row.
  assert (Hf : In m (filter (date_matches (Some s)) daily))
    by (apply filter_In; split; assumption).
  destruct (filter (date_matches (Some s)) daily) as [|m' l] eqn:E; [contradiction|].
  assert (Hm' : In m' (filter (date_matches (Some s)) daily))
    by (rewrite E; left; reflexivity).
  apply filter_In in Hm' as [Hin' Hd]. exists m'.
  split; [reflexivity|]. split; [exact Hin'|].
  unfold date_matches in Hd. apply String.eqb_eq. exact Hd.
Qed.

Lemma lookup_offered (daily : list DailyMetrics) (picked : nat) :
  (picked < length daily)%nat ->
  exists m,
    selected_row daily (selectbox (date_options daily) picked) = Ok m /\
    In m daily /\
    selectbox (date_options daily) picked
    = Some (Iso.isoformat (date (metrics m))).
Proof.
  intros Hlt. destruct (nth_error daily picked) as [mp|] eqn:E.
  2: { apply nth_error_None in E. lia. }
  unfold selectbox, date_options. rewrite nth_error_map, E. simpl.
  destruct (first_match daily (Iso.isoformat (date (metrics mp))) mp)
    as (m' & H1 & H2 & H3).
  - eapply nth_error_In; eassumption.
  - unfold date_matches. apply String.eqb_refl.
  - exists m'. split; [exact H1|]. split; [exact H2|]. rewrite H3. reflexivity.
Qed.

(** The select box offers the dates of the frame, so a pick can only be one
    of them: the look-up then never raises.  It returns a row of the frame
    whose date reads as the picked string, and for the default pick, index
    0, the very first row: the page opens on the oldest day of the window. *)
Theorem offered_date_is_found (daily : list DailyMetrics) (picked : nat) :
  (picked < length daily)%nat ->
  (exists m,
      selected_row daily (selectbox (date_options daily) picked) = Ok m /\
      In m daily /\
      selectbox (date_options daily) picked
      = Some (Iso.isoformat (date (metrics m)))) /\
  selected_row daily (selectbox (date_options daily) 0)
  = Ok (hd (with_status (mkDaily 0 0 None None)) daily).
Proof.
  intros Hlt. split.
  - now apply lookup_offered.
  - destruct daily as [|m rest]; [simpl in Hlt; lia|].
    unfold selected_row, selectbox, date_options.
    cbn [map nth_error filter hd date_matches]. rewrite String.eqb_refl. reflexivity.
Qed.

Lemma offered_date_is_found_witness :
  exists m,
    selected_row (map with_status Sample.unsorted)
                 (selectbox (date_options (map with_status Sample.unsorted)) 2) = Ok m /\
    date (metrics m) = 19724%Z.
Proof.
  destruct (offered_date_is_found (map with_status Sample.unsorted) 2)
    as [(m & H & _ & _) _]; [simpl; lia|].
  exists m. split; [exact H|].
  assert (E : selected_row (map with_status Sample.unsorted)
                (selectbox (date_options (map with_status Sample.unsorted)) 2)
              = Ok (with_status (Sample.day 19724 4 9 0))) by (vm_compute; reflexivity).
  rewrite E in H. now injection H as <-.
Defined.

(** ** The demo frame (lines 78-83) *)

Lemma days_from_length (s : Z) (k : nat) : length (days_from s k) = k.
Proof. revert s; induction k as [|k IH]; intros s; simpl; [reflexivity | now rewrite IH]. Qed.

Lemma days_from_lower (s : Z) (k : nat) : Forall (fun d => (s <= d)%Z) (days_from s k).
Proof.
  revert s; induction k as [|k IH]; intros s; simpl; constructor; [lia|].
  eapply Forall_impl; [|apply IH]. simpl. intros; lia.
Qed.

Lemma days_from_sorted (s : Z) (k : nat) : StronglySorted Z.lt (days_from s k).
Proof.
  revert s; induction k as [|k IH]; intros s; simpl; constructor; [apply IH|].
  eapply Forall_impl; [|apply days_from_lower]. simpl. intros; lia.
Qed.

Lemma date_of_next_day (ns : Z) : date_of (ns + ns_per_day) = (date_of ns + 1)%Z.
Proof.
  unfold date_of. rewrite <- (Z.mul_1_l ns_per_day) at 1.
  rewrite Z.div_add; [reflexivity | discriminate].
Qed.

Lemma date_of_days_back (ns k : Z) : date_of (ns - k * ns_per_day) = (date_of ns - k)%Z.
Proof.
  unfold date_of. replace (ns - k * ns_per_day)%Z with (ns + (- k) * ns_per_day)%Z by ring.
  rewrite Z.div_add; [ring | discriminate].
Qed.

Lemma daily_from_dates (s : Z) (k : nat) :
  map date_of (daily_from s k) = days_from (date_of s) k.
Proof.
  revert s; induction k as [|k IH]; intros s; simpl; [reflexivity|].
  now rewrite IH, date_of_next_day.
Qed.

Lemma daily_from_length (s : Z) (k : nat) : length (daily_from s k) = k.
Proof. revert s; induction k as [|k IH]; intros s; simpl; [reflexivity | now rewrite IH]. Qed.

Lemma date_range_dates (end_ : Z) (k : nat) :
  map date_of (date_range end_ k) = days_from (date_of end_ - (Z.of_nat k - 1)) k.
Proof. unfold date_range. now rewrite daily_from_dates, date_of_days_back. Qed.

Lemma sorted_keys_id (l : list Z) :
  StronglySorted Z.lt l -> fold_right insert_key [] l = l.
Proof.
  induction 1 as [|k l Hs IH Hall]; simpl; [reflexivity|].
  rewrite IH. destruct l as [|k' l]; simpl; [reflexivity|].
  inversion Hall as [|? ? Hk _]; subst.
  destruct (Z.ltb_spec k k'); [reflexivity | lia].
Qed.

Lemma at_most_one {A : Type} (f : A -> Z) (k : Z) (l : list A) :
  NoDup (map f l) -> (length (filter (fun x => (f x =? k)%Z) l) <= 1)%nat.
Proof.
  induction l as [|x l IH]; simpl; intros Hnd; [lia|].
  inversion Hnd as [|? ? Hx Hnd']; subst. specialize (IH Hnd').
  destruct (Z.eqb_spec (f x) k) as [Hk|]; [|exact IH]. simpl.
  replace (filter (fun x0 => (f x0 =? k)%Z) l) with (@nil A); [simpl; lia|].
  symmetry. clear IH Hnd Hnd'. induction l as [|y l IHl]; simpl; [reflexivity|].
  destruct (Z.eqb_spec (f y) k) as [Hy|].
  - exfalso. apply Hx. simpl. left. congruence.
  - apply IHl. intros Hin. apply Hx. now right.
Qed.

Lemma demo_rows_created (ds ms : list Z) (ss : list string) :
  length ms = length ds -> length ss = length ds ->
  map (fun r : Row => r "created_date") (demo_rows ds ms ss) = map VTimestamp ds.
Proof.
  revert ms ss; induction ds as [|d ds IH]; intros [|m ms] [|s ss]; simpl;
    try discriminate; try reflexivity.
  intros [= Hm] [= Hs]. now rewrite IH.
Qed.

Lemma demo_rows_minutes (ds ms : list Z) (ss : list string) (r : Row) :
  In r (demo_rows ds ms ss) ->
  exists d m,
    In m ms /\ r "created_date" = VTimestamp d /\
    r "resolved_date" = VTimestamp (d + m * 60000000000).
Proof.
  revert ms ss; induction ds as [|d ds IH]; intros [|m ms] [|s ss]; simpl;
    try contradiction.
  intros [<-|Hin].
  - exists d, m. repeat split. now left.
  - destruct (IH _ _ Hin) as (d' & m' & H1 & H2 & H3).
    exists d', m'. repeat split; auto.
Qed.

Lemma minutes_value (d m : Z) (lo hi : Z) :
  (lo <= m <= hi)%Z ->
  in_range (inject_Z lo) (inject_Z hi)
           (as_float (minutes_cell (VTimestamp (d + m * 60000000000)) (VTimestamp d))).
Proof.
  intros [Hl Hh]. simpl. eexists. split; [reflexivity|].
  replace (d + m * 60000000000 - d)%Z with (m * 60000000000)%Z by ring.
  unfold Qle, inject_Z. cbn [Qnum Qden]. split; nia.
Qed.

Section DemoFacts.

Variable parse_datetime : list value -> value -> option Z.
Variable rng : Type.
Variable random_sample : rng -> Q * rng.
Variable random_integer : Z -> Z -> rng -> Z * rng.

Local Abbreviation to_datetime := (to_datetime parse_datetime).
Local Abbreviation normalize := (normalize parse_datetime rng random_sample).
Local Abbreviation pipeline := (pipeline parse_datetime rng random_sample).
Local Abbreviation parsed_rows := (parsed_rows parse_datetime).
Local Abbreviation records := (records parse_datetime).
Local Abbreviation randint := (randint rng random_integer).
Local Abbreviation choice := (choice rng random_integer).
Local Abbreviation demo_frame := (demo_frame rng random_integer).
Local Abbreviation page := (page parse_datetime rng random_sample random_integer).

Lemma length_randint (low high : Z) (n : nat) (g : rng) :
  length (fst (randint low high n g)) = n.
Proof.
  revert g; induction n as [|n IH]; intros g; simpl; [reflexivity|].
  destruct (random_integer low high g) as [k g1]. specialize (IH g1).
  destruct (randint low high n g1) as [ks g2]. simpl in *. now rewrite IH.
Qed.

Lemma randint_bounds (low high : Z) (n : nat) (g : rng) :
  bounded_integers random_integer -> (low < high)%Z ->
  Forall (fun k => (low <= k < high)%Z) (fst (randint low high n g)).
Proof.
  intros Hb Hlt. revert g; induction n as [|n IH]; intros g; simpl; [constructor|].
  pose proof (Hb low high g Hlt) as Hk.
  destruct (random_integer low high g) as [k g1]. specialize (IH g1).
  destruct (randint low high n g1) as [ks g2]. simpl in *. now constructor.
Qed.

Lemma length_choice (options : list string) (n : nat) (g : rng) :
  length (fst (choice options n g)) = n.
Proof.
  unfold choice. pose proof (length_randint 0 (Z.of_nat (length options)) n g) as L.
  destruct (randint 0 (Z.of_nat (length options)) n g) as [idx g']. simpl in *.
  now rewrite length_map.
Qed.

Lemma demo_frame_shape (today : Z) (g : rng) :
  exists ms ss,
    length ms = 60%nat /\ length ss = 60%nat /\
    (bounded_integers random_integer -> Forall (fun m => (30 <= m < 300)%Z) ms) /\
    fst (demo_frame today g)
    = {| columns := ["created_date"; "resolved_date"; "status"];
         dtypes := fun c => if String.eqb c "status" then object_ else datetime64;
         rows := demo_rows (date_range today 60) ms ss |}.
Proof.
  unfold demo_frame.
  assert (Hlen : length (date_range today 60) = 60%nat) by apply daily_from_length.
  rewrite Hlen.
  pose proof (length_randint 30 300 60 g) as Lm.
  pose proof (fun Hb => randint_bounds 30 300 60 g Hb eq_refl) as Bm.
  destruct (randint 30 300 60 g) as [ms g1]. simpl in Lm, Bm.
  pose proof (length_choice ["Resolved"; "Open"; "Pending"] 60 g1) as Ls.
  destruct (choice ["Resolved"; "Open"; "Pending"] 60 g1) as [ss g2]. simpl in Ls.
  exists ms, ss. repeat split; auto.
Qed.

Lemma timestamped_all (c : string) (ctx : list value) (rs : list Row) :
  Forall (fun r : Row => exists t, r c = VTimestamp t) rs ->
  timestamped rs (map (to_datetime_cell parse_datetime ctx) (map (fun r : Row => r c) rs))
  = map (fun r : Row => (r, ts_of (r c))) rs.
Proof.
  induction 1 as [|r rs [t Ht] _ IH]; simpl; [reflexivity|].
  rewrite Ht. simpl. now rewrite IH.
Qed.

Lemma parsed_rows_all (c : string) (df : DataFrame) :
  Forall (fun r : Row => exists t, r c = VTimestamp t) (rows df) ->
  parsed_rows c df = map (fun r : Row => (r, ts_of (r c))) (rows df).
Proof. apply timestamped_all. Qed.

(** The frame of lines 79-83 for given draws. *)
Let frame (today : Z) (ms : list Z) (ss : list string) : DataFrame :=
  {| columns := ["created_date"; "resolved_date"; "status"];
     dtypes := fun c => if String.eqb c "status" then object_ else datetime64;
     rows := demo_rows (date_range today 60) ms ss |}.

Lemma frame_parsed (today : Z) (ms : list Z) (ss : list string) :
  parsed_rows "created_date" (frame today ms ss)
  = map (fun r : Row => (r, ts_of (r "created_date")))
        (demo_rows (date_range today 60) ms ss).
Proof.
  apply parsed_rows_all. apply Forall_forall. intros r Hr.
  destruct (demo_rows_minutes _ _ _ _ Hr) as (d & m & _ & H & _). now exists d.
Qed.

Lemma frame_event_dates (today : Z) (ms : list Z) (ss : list string) :
  length ms = 60%nat -> length ss = 60%nat ->
  map (fun p : Row * Z => date_of (snd p)) (parsed_rows "created_date" (frame today ms ss))
  = days_from (date_of today - 59) 60.
Proof.
  intros Hm Hs. rewrite frame_parsed, map_map. cbn [snd].
  rewrite <- (map_map (fun r : Row => r "created_date") (fun v => date_of (ts_of v))).
  rewrite demo_rows_created
    by (unfold date_range; rewrite daily_from_length; assumption).
  rewrite map_map. cbn [ts_of].
  change (map (fun x : Z => date_of x) (date_range today 60))
    with (map date_of (date_range today 60)).
  apply date_range_dates.
Qed.

Lemma frame_records (today : Z) (ms : list Z) (ss : list string) :
  Forall (fun m => (30 <= m < 300)%Z) ms ->
  Forall (fun x : Z * float => in_range 30 300 (snd x))
         (records "created_date" (frame today ms ss)).
Proof.
  intros Hb. unfold records. cbv zeta.
  generalize (map (fun p : Row * Z => fst p "resolved_date")
                  (parsed_rows "created_date" (frame today ms ss))).
  intros ctx. rewrite frame_parsed, map_map.
  apply Forall_map, Forall_forall. intros r Hr. cbn [fst snd].
  destruct (demo_rows_minutes _ _ _ _ Hr) as (d & m & Hin & Hc & Hres).
  rewrite Hc, Hres. cbn [ts_of to_datetime_cell].
  rewrite Forall_forall in Hb. specialize (Hb m Hin).
  apply (minutes_value d m 30 300). lia.
Qed.

Lemma frame_runs (n : nat) (today : Z) (ms : list Z) (ss : list string) (g : rng) :
  exists df' g',
    normalize "created_date" (frame today ms ss) g = (Ok df', g') /\
    pipeline n (frame today ms ss) g = (Ok (map with_status (aggregate n df')), g').
Proof.
  destruct (normalize_total parse_datetime rng random_sample
              "created_date" (frame today ms ss) g) as (df' & g' & Hn).
  - apply is_date_name_iff. reflexivity.
  - reflexivity.
  - exists df', g'. split; [exact Hn|].
    rewrite (pipeline_detected parse_datetime rng random_sample n "created_date"
               (frame today ms ss) g eq_refl).
    now rewrite Hn.
Qed.

Lemma frame_days (n : nat) (today : Z) (ms : list Z) (ss : list string) (g g' : rng)
      (df' : DataFrame) :
  length ms = 60%nat -> length ss = 60%nat ->
  normalize "created_date" (frame today ms ss) g = (Ok df', g') ->
  map date (aggregate n df') = tail n (days_from (date_of today - 59) 60) /\
  Forall (fun row => daily_tickets row = 1%nat) (aggregate n df').
Proof.
  intros Hm Hs Hn. split.
  - rewrite aggregate_sorted, tail_map, map_map. cbn [date scale_error_rate].
    change (map (fun x : DailyRow => date x) (groupby_agg df'))
      with (map date (groupby_agg df')).
    rewrite groupby_dates, (normalize_date_column _ _ _ _ _ _ _ _ Hn).
    unfold group_keys. rewrite date_cells_events, frame_event_dates by assumption.
    now rewrite sorted_keys_id by apply days_from_sorted.
  - apply Forall_forall. intros row Hrow.
    destruct (tickets_of_row _ _ _ _ _ _ _ _ _ _ Hn Hrow) as [Ht H1].
    pose proof (at_most_one (fun p : Row * Z => date_of (snd p)) (date row)
                  (parsed_rows "created_date" (frame today ms ss))) as H2.
    rewrite frame_event_dates in H2 by assumption.
    specialize (H2 (sorted_lt_NoDup _ (days_from_sorted _ _))).
    unfold rows_of_day in Ht. lia.
Qed.

(** The demo frame always yields an output: the last [min n 60] of the 60
    consecutive calendar days that end today, in order, each with exactly
    one ticket. *)
Theorem demo_shows_the_last_days (n : nat) (today : Z) (g : rng) :
  exists daily g',
    pipeline n (fst (demo_frame today g)) (snd (demo_frame today g)) = (Ok daily, g') /\
    map (fun m => date (metrics m)) daily = tail n (days_from (date_of today - 59) 60) /\
    length daily = Nat.min n 60 /\
    Forall (fun m => daily_tickets (metrics m) = 1%nat) daily.
Proof.
  destruct (demo_frame_shape today g) as (ms & ss & Hm & Hs & _ & ->).
  destruct (frame_runs n today ms ss (snd (demo_frame today g))) as (df' & g' & Hn & Hp).
  destruct (frame_days n today ms ss _ _ df' Hm Hs Hn) as [Hd Ht].
  exists (map with_status (aggregate n df')), g'.
  split; [exact Hp|]. split; [|split].
  - rewrite map_map. exact Hd.
  - rewrite length_map, <- (length_map date), Hd, tail_length, days_from_length.
    reflexivity.
  - apply Forall_map. exact Ht.
Qed.

Lemma frame_needs_action (n : nat) (today : Z) (ms : list Z) (ss : list string)
      (g g' : rng) (df' : DataFrame) :
  length ms = 60%nat -> length ss = 60%nat ->
  Forall (fun m => (30 <= m < 300)%Z) ms ->
  normalize "created_date" (frame today ms ss) g = (Ok df', g') ->
  Forall (fun row =>
            in_range 30 300 (avg_processing_time row) /\
            classify row = ActionRequired)
         (aggregate n df').
Proof.
  intros Hm Hs Hms Hn.
  assert (Hp : pipeline n (frame today ms ss) g
               = (Ok (map with_status (aggregate n df')), g')).
  { rewrite (pipeline_detected parse_datetime rng random_sample n "created_date"
               (frame today ms ss) g eq_refl). now rewrite Hn. }
  pose proof (processing_time_mean parse_datetime rng random_sample n "created_date"
                (frame today ms ss) _ _ _ eq_refl
                ltac:(discriminate) ltac:(discriminate) eq_refl Hp) as Hmean.
  destruct (frame_days n today ms ss _ _ df' Hm Hs Hn) as [_ Ht].
  pose proof (frame_records today ms ss Hms) as Hr.
  rewrite Forall_forall in *. intros row Hrow.
  destruct (Hmean (with_status row) (in_map with_status _ _ Hrow)) as [Ha Hl].
  cbv zeta in Ha, Hl. cbn [metrics with_status] in *.
  rewrite (Ht row Hrow) in Hl.
  assert (R : in_range 30 300 (avg_processing_time row)).
  { rewrite Ha. apply mean_in_range.
    - intros Hnil. rewrite Hnil in Hl. discriminate.
    - unfold minutes_of_day. apply Forall_map, Forall_forall. intros x Hx.
      apply filter_In in Hx as [Hx _]. now apply Hr. }
  split; [exact R|].
  destruct R as (q & Hq & Hlo & _). unfold classify.
  assert (G : gt (avg_processing_time row) 8 = true).
  { apply gt_exceeds. exists q. split; [assumption | lra]. }
  rewrite G, orb_true_r. reflexivity.
Qed.

(** Every day of the demo frame is labelled ActionRequired.  Its tickets
    are resolved between 30 and 300 minutes after their creation, so the
    daily average is in that range and above the threshold of 8 minutes,
    whatever the statuses drawn. *)
Theorem demo_always_needs_action
    (n : nat) (today : Z) (g g' : rng) (daily : list DailyMetrics) :
  bounded_integers random_integer ->
  pipeline n (fst (demo_frame today g)) (snd (demo_frame today g)) = (Ok daily, g') ->
  Forall (fun m =>
            in_range 30 300 (avg_processing_time (metrics m)) /\
            status m = ActionRequired)
         daily.
Proof.
  intros Hb. destruct (demo_frame_shape today g) as (ms & ss & Hm & Hs & Hms & ->).
  specialize (Hms Hb). intros Hp.
  destruct (frame_runs n today ms ss (snd (demo_frame today g))) as (df' & h & Hn & Hp').
  unfold frame in Hp'. rewrite Hp' in Hp. injection Hp as <- <-.
  apply Forall_map. exact (frame_needs_action n today ms ss _ _ df' Hm Hs Hms Hn).
Qed.

(** Lines 74-155 on the demo frame: whatever day of the window is picked,
    the page finds it, and the day it shows has one ticket and the label
    ActionRequired. *)
Theorem demo_page_needs_action (n : nat) (today : Z) (picked : nat) (g : rng) :
  bounded_integers random_integer ->
  (picked < Nat.min n 60)%nat ->
  exists m,
    page n None today picked g = Ok m /\
    daily_tickets (metrics m) = 1%nat /\
    status m = ActionRequired.
Proof.
  intros Hb Hlt. unfold page, load_data.
  destruct (demo_frame_shape today g) as (ms & ss & Hm & Hs & Hms & HF).
  specialize (Hms Hb).
  destruct (demo_frame today g) as [F g1] eqn:EF.
  cbn [fst] in HF. subst F.
  destruct (frame_runs n today ms ss g1) as (df' & h & Hn & Hp).
  unfold frame in Hp. rewrite Hp.
  destruct (frame_days n today ms ss _ _ df' Hm Hs Hn) as [Hd Ht].
  pose proof (frame_needs_action n today ms ss _ _ df' Hm Hs Hms Hn) as Ha.
  destruct (lookup_offered (map with_status (aggregate n df')) picked)
    as (m & Hsel & Hin & _).
  { rewrite length_map, <- (length_map date), Hd, tail_length, days_from_length.
    exact Hlt. }
  exists m. split; [exact Hsel|].
  apply in_map_iff in Hin as (row & <- & Hrow). cbn [metrics with_status status].
  rewrite Forall_forall in Ht, Ha. split; [now apply Ht | now apply Ha].
Qed.

(** Lines 74-155 on an uploaded table.  Without a column whose name
    contains ["date"] the page stops with the message of line 98 before any
    look-up.  With such a column and a usable status column, but no row
    whose primary timestamp parses, the frame of days is empty and the
    look-up of line 155 raises IndexError, whatever is picked. *)
Theorem page_on_table_without_dates
    (n : nat) (raw_df : DataFrame) (today : Z) (picked : nat) (g : rng) :
  (detect_date_col (columns raw_df) = None ->
   page n (Some raw_df) today picked g = MissingTimestampColumn) /\
  (forall c,
      detect_date_col (columns raw_df) = Some c ->
      status_usable raw_df = true ->
      parsed_rows c raw_df = [] ->
      page n (Some raw_df) today picked g = Raise "IndexError").
Proof.
  unfold page, load_data. split.
  - intros E. unfold pipeline. rewrite E. reflexivity.
  - intros c E Hs HP.
    rewrite (pipeline_detected parse_datetime rng random_sample n c raw_df g E).
    destruct (detected_name _ _ E) as [Hc _].
    destruct (normalize_total parse_datetime rng random_sample c raw_df g Hc Hs)
      as (df' & g' & Hn).
    rewrite Hn. cbn [fst snd outcome_map].
    assert (Hl : length (groupby_agg df') = 0%nat).
    { rewrite (groupby_length _ _ _ _ _ _ _ _ Hn).
      unfold distinct_dates, event_dates. now rewrite HP. }
    rewrite aggregate_sorted.
    destruct (groupby_agg df'); [|discriminate]. reflexivity.
Qed.

End DemoFacts.

(** ** The further properties on the sample tables *)

Lemma sample_unit_samples : unit_samples Sample.sample.
Proof.
  intros g. unfold Sample.sample. cbn [fst].
  pose proof (Nat.mod_upper_bound g 10 ltac:(discriminate)) as H.
  unfold Qle, Qlt. cbn [Qnum Qden]. split; lia.
Qed.

Lemma draws_bounded_integers : bounded_integers Draws.integer.
Proof.
  intros low high g Hlt. unfold Draws.integer. cbn [fst].
  pose proof (Z.mod_pos_bound (Z.of_nat g) (high - low) ltac:(lia)). lia.
Qed.

Lemma daily_tickets_are_parsed_rows_witness :
  Forall (fun m =>
            daily_tickets (metrics m)
            = length (rows_of_day (date (metrics m))
                        (parsed_rows Sample.parse "created_date" Sample.tickets)) /\
            (1 <= daily_tickets (metrics m))%nat)
         (Draws.output (Sample.run 7 Sample.tickets 0)).
Proof.
  apply (daily_tickets_are_parsed_rows Sample.parse nat Sample.sample
           7 "created_date" Sample.tickets 0%nat
           (snd (Sample.run 7 Sample.tickets 0))); reflexivity.
Defined.

Lemma tickets_conserved_witness :
  total_tickets (Draws.output (Sample.run 7 Sample.tickets_junk 0)) = 4%nat.
Proof.
  apply (tickets_conserved Sample.parse nat Sample.sample
           7 "created_date" Sample.tickets_junk 0%nat
           (snd (Sample.run 7 Sample.tickets_junk 0)));
    try reflexivity.
  vm_compute. lia.
Defined.

Lemma error_rate_is_a_percentage_witness :
  Forall (fun m => in_range 0 100 (error_rate (metrics m)))
         (Draws.output (Sample.run 7 Sample.bare 9)).
Proof.
  apply (error_rate_is_a_percentage Sample.parse nat Sample.sample
           7 "Created Date" Sample.bare 9%nat
           (snd (Sample.run 7 Sample.bare 9))); reflexivity.
Defined.


Lemma open_tickets_drive_status_witness :
  Forall (fun m =>
            let day := rows_of_day (date (metrics m))
                         (parsed_rows Sample.parse "created_date" Sample.tickets) in
            let errors := errors_of_day (date (metrics m))
                            (parsed_rows Sample.parse "created_date" Sample.tickets) in
            ((length day < 20 * length errors)%nat -> status m = ActionRequired) /\
            (status m = OnTrack -> (50 * length errors <= length day)%nat))
         (Draws.output (Sample.run 7 Sample.tickets 0)).
Proof.
  apply (open_tickets_drive_status Sample.parse nat Sample.sample
           7 "created_date" Sample.tickets 0%nat
           (snd (Sample.run 7 Sample.tickets 0))); reflexivity.
Defined.

Lemma fallback_processing_time_witness :
  Forall (fun m => in_range 5 10 (avg_processing_time (metrics m)))
         (Draws.output (Sample.run 7 Sample.bare 9)).
Proof.
  apply (fallback_processing_time Sample.parse nat Sample.sample
           7 "Created Date" Sample.bare 9%nat
           (snd (Sample.run 7 Sample.bare 9)));
    try reflexivity.
  exact sample_unit_samples.
Defined.

Lemma no_draw_with_both_columns_witness :
  snd (Sample.run 7 Sample.tickets 5) = 5%nat /\
  snd (Sample.run 7 Sample.bare 5) <> 5%nat.
Proof.
  split.
  - apply (no_draw_with_both_columns Sample.parse nat Sample.sample
             7 Sample.tickets 5%nat); reflexivity.
  - vm_compute. discriminate.
Defined.

Lemma unresolved_day_has_no_average_witness :
  Forall (fun m =>
            avg_processing_time (metrics m) = None /\ status m = ActionRequired)
         (Draws.output (Sample.run 7 Draws.unresolved 0)).
Proof.
  pose proof (unresolved_day_has_no_average Sample.parse nat Sample.sample
                7 "created_date" Draws.unresolved 0%nat
                (snd (Sample.run 7 Draws.unresolved 0))
                (Draws.output (Sample.run 7 Draws.unresolved 0))
                eq_refl ltac:(discriminate) ltac:(discriminate) eq_refl eq_refl) as H.
  remember (Draws.output (Sample.run 7 Draws.unresolved 0)) as daily eqn:E.
  vm_compute in E. subst daily.
  inversion H as [|m l Hm _]; subst. constructor; [|constructor].
  destruct Hm as (Ha & Hs & _).
  - vm_compute. repeat constructor.
  - split; [exact Ha|]. apply Hs.
    eexists. split; [reflexivity|]. vm_compute. reflexivity.
Defined.

Lemma demo_always_needs_action_witness :
  Forall (fun m =>
            in_range 30 300 (avg_processing_time (metrics m)) /\
            status m = ActionRequired)
         (Draws.output
            (Sample.run 7 (fst (demo_frame nat Draws.integer Draws.today 3%nat))
                        (snd (demo_frame nat Draws.integer Draws.today 3%nat)))).
Proof.
  apply (demo_always_needs_action Sample.parse nat Sample.sample Draws.integer
           7 Draws.today 3%nat
           (snd (Sample.run 7 (fst (demo_frame nat Draws.integer Draws.today 3%nat))
                            (snd (demo_frame nat Draws.integer Draws.today 3%nat))))).
  - exact draws_bounded_integers.
  - vm_compute. reflexivity.
Defined.

Lemma demo_page_needs_action_witness :
  exists m,
    Draws.page 7 None Draws.today 0 3 = Ok m /\
    daily_tickets (metrics m) = 1%nat /\
    status m = ActionRequired.
Proof.
  apply (demo_page_needs_action Sample.parse nat Sample.sample Draws.integer
           7 Draws.today 0 3%nat).
  - exact draws_bounded_integers.
  - vm_compute. lia.
Defined.

Lemma page_on_table_without_dates_witness :
  Draws.page 7 (Some Sample.notes_only) Draws.today 0 0 = MissingTimestampColumn /\
  Draws.page 7 (Some Sample.unparsable) Draws.today 0 0 = Raise "IndexError".
Proof.
  split.
  - apply (page_on_table_without_dates Sample.parse nat Sample.sample Draws.integer
             7 Sample.notes_only Draws.today 0 0%nat). reflexivity.
  - apply (page_on_table_without_dates Sample.parse nat Sample.sample Draws.integer
             7 Sample.unparsable Draws.today 0 0%nat) with (c := "created_date");
      reflexivity.
Defined.

(** ** The dates of the output *)

Lemma sorted_app_lt (a b : list Z) :
  StronglySorted Z.lt (a ++ b) ->
  StronglySorted Z.lt b /\ forall x y, In x a -> In y b -> (x < y)%Z.
Proof.
  induction a as [|k a IH]; simpl; intros H.
  - split; [exact H | intros x y []].
  - inversion H as [|? ? Hs Hall]; subst. destruct (IH Hs) as [Hb Hlt].
    split; [exact Hb|]. intros x y [<-|Hx] Hy.
    + rewrite Forall_forall in Hall. apply Hall. apply in_or_app. now right.
    + now apply Hlt.
Qed.

Section OutputDates.

Variable parse_datetime : list value -> value -> option Z.
Variable rng : Type.
Variable random_sample : rng -> Q * rng.

Local Abbreviation pipeline := (pipeline parse_datetime rng random_sample).
Local Abbreviation event_dates := (event_dates parse_datetime).
Local Abbreviation records := (records parse_datetime).

(** The dates of the output increase strictly; each is the calendar date
    of some row whose primary timestamp parsed; and any such date that is
    missing from the output is older than every date in it: the window
    keeps the most recent days of the table. *)
Theorem output_keeps_latest_dates
    (n : nat) (c : string) (raw_df : DataFrame) (g g' : rng)
    (daily : list DailyMetrics) :
  detect_date_col (columns raw_df) = Some c ->
  pipeline n raw_df g = (Ok daily, g') ->
  let dates := map (fun m => date (metrics m)) daily in
  StronglySorted Z.lt dates /\
  (forall d, In d dates -> In d (event_dates c raw_df)) /\
  (forall d d', In d (event_dates c raw_df) -> ~ In d dates -> In d' dates ->
                (d < d')%Z).
Proof.
  intros E Hp. destruct (pipeline_Ok _ _ _ _ _ _ _ _ _ E Hp) as (df' & Hn & ->).
  cbv zeta. rewrite map_map. cbn [metrics with_status].
  change (map (fun x : DailyRow => date x) (aggregate n df'))
    with (map date (aggregate n df')).
  rewrite aggregate_sorted, tail_map, map_map. cbn [date scale_error_rate].
  change (map (fun x : DailyRow => date x) (groupby_agg df'))
    with (map date (groupby_agg df')).
  rewrite groupby_dates.
  set (K := group_keys (column df' "date")).
  assert (HK : forall d, In d K <-> In d (event_dates c raw_df)).
  { intros d. unfold K. rewrite group_keys_In.
    rewrite (normalize_date_column _ _ _ _ _ _ _ _ Hn), date_cells_events.
    reflexivity. }
  pose proof (group_keys_sorted (column df' "date")) as Hs. fold K in Hs.
  rewrite (tail_split n K) in Hs. apply sorted_app_lt in Hs as [Hs Hlt].
  split; [exact Hs|]. split.
  - intros d Hd. apply HK. now apply (tail_In n).
  - intros d d' Hd Hnot Hd'. apply HK in Hd.
    rewrite (tail_split n K) in Hd. apply in_app_or in Hd as [Hd|Hd];
      [|contradiction].
    now apply Hlt.
Qed.





End OutputDates.

(** ** The classifier and the name test, once more *)

Lemma gt_monotone (x y : Q) (c : Q) :
  (x <= y)%Q -> gt (Some x) c = true -> gt (Some y) c = true.
Proof.
  intros Hxy H. apply gt_exceeds in H as (q & Hq' & Hq).
  injection Hq' as Hq'. subst q.
  apply gt_exceeds. exists y. split; [reflexivity|].
  eapply Qlt_le_trans; eassumption.
Qed.

(** The label never improves when the figures get worse: a day with an
    error rate and an average processing time at least as high as those of
    another day has a label at least as severe. *)
Theorem classify_monotone (r1 r2 : DailyRow) (e1 e2 a1 a2 : Q) :
  error_rate r1 = Some e1 -> error_rate r2 = Some e2 ->
  avg_processing_time r1 = Some a1 -> avg_processing_time r2 = Some a2 ->
  (e1 <= e2)%Q -> (a1 <= a2)%Q ->
  (severity (classify r1) <= severity (classify r2))%nat.
Proof.
  intros He1 He2 Ha1 Ha2 He Ha. unfold classify. rewrite He1, He2, Ha1, Ha2.
  pose proof (gt_monotone e1 e2 5 He) as M5.
  pose proof (gt_monotone e1 e2 2 He) as M2.
  pose proof (gt_monotone a1 a2 8 Ha) as M8.
  destruct (gt (Some e1) 5), (gt (Some a1) 8), (gt (Some e1) 2),
           (gt (Some e2) 5), (gt (Some a2) 8), (gt (Some e2) 2);
    cbn [orb severity]; try lia;
    try (specialize (M5 eq_refl); discriminate);
    try (specialize (M8 eq_refl); discriminate);
    try (specialize (M2 eq_refl); discriminate).
Qed.

Lemma classify_monotone_witness :
  (severity (classify (Sample.day 19723 3 7 3)) <=
   severity (classify (Sample.day 19724 1 (17 # 2) 3)))%nat.
Proof.
  apply (classify_monotone _ _ 3 3 7 (17 # 2)); try reflexivity.
  - apply Qle_refl.
  - unfold Qle. simpl. lia.
Defined.

Lemma lower_app (a b : string) :
  Str.lower (a ++ b)%string = (Str.lower a ++ Str.lower b)%string.
Proof. induction a as [|x a IH]; simpl; [reflexivity | now rewrite IH]. Qed.

Lemma lower_ascii_idem (x : ascii) :
  Str.lower_ascii (Str.lower_ascii x) = Str.lower_ascii x.
Proof.
  unfold Str.lower_ascii.
  destruct ((65 <=? nat_of_ascii x)%nat && (nat_of_ascii x <=? 90)%nat) eqn:E.
  - apply andb_true_iff in E as [E1 E2].
    apply Nat.leb_le in E1, E2.
    rewrite nat_ascii_embedding by lia.
    replace ((65 <=? nat_of_ascii x + 32)%nat && (nat_of_ascii x + 32 <=? 90)%nat)
      with false; [reflexivity|].
    symmetry. apply andb_false_iff. right. apply Nat.leb_gt. lia.
  - now rewrite E.
Qed.

Lemma lower_idem (s : string) : Str.lower (Str.lower s) = Str.lower s.
Proof.
  induction s as [|x s IH]; simpl; [reflexivity|].
  now rewrite lower_ascii_idem, IH.
Qed.

(** The name test does not look at the case: a name passes as soon as it
    contains a word that reads ["date"] once lowered, wherever the word
    stands and whatever its capitals; and a name passes exactly when its
    lowered form does. *)
Theorem date_name_ignores_case (before word after col : string) :
  Str.lower word = "date" ->
  is_date_name (before ++ word ++ after)%string = true /\
  is_date_name (Str.lower col) = is_date_name col.
Proof.
  intros Hw. split.
  - apply is_date_name_iff. unfold names_a_date.
    exists (Str.lower before), (Str.lower after).
    now rewrite !lower_app, Hw.
  - unfold is_date_name. now rewrite lower_idem.
Qed.

Lemma date_name_ignores_case_witness :
  is_date_name "Ticket_DaTe (UTC)" = true.
Proof.
  apply (date_name_ignores_case "Ticket_" "DaTe" " (UTC)" "x"). reflexivity.
Defined.

Lemma output_keeps_latest_dates_witness :
  StronglySorted Z.lt
    (map (fun m => date (metrics m)) (Draws.output (Sample.run 2 Sample.tickets 0))).
Proof.
  apply (output_keeps_latest_dates Sample.parse nat Sample.sample
           2 "created_date" Sample.tickets 0%nat
           (snd (Sample.run 2 Sample.tickets 0))); reflexivity.
Defined.

